(** * Nexlayer MCP: manifest serializers, client cache and remote validation

    A shallow embedding of the manifest-producing code of the Nexlayer MCP
    server:

    - [NexlayerApiClient.generateYaml] / [yamlToString]
      (services/nexlayer-api.ts),
    - [FileGenerator.generateNexlayerYaml] (services/file-generator.ts),
    - [getClient] and the [validate-yaml] tool (index.ts).

    JavaScript strings are modelled as [string]; template literals and [+=]
    become [++].  A [number] used as a port is modelled as an integer [Z]
    and its interpolation as the decimal numeral.  An optional field
    ([servicePorts?], [vars?], [secrets?]) is an [option]; [None] is the
    JavaScript [undefined].  The record [vars] is modelled by the sequence
    [Object.entries] yields for it: an association list of key and value. *)

From Stdlib Require Import String Ascii List ZArith Lia Bool.
From Stdlib Require Import DecimalString DecimalZ Permutation.
Import ListNotations.

Open Scope list_scope.
Open Scope string_scope.

(* ================================================================= *)
(** ** Characters and text helpers *)

Definition lf_char : ascii := "010"%char.
Definition dq_char : ascii := "034"%char.
Definition colon_char : ascii := ":"%char.

(** The line feed a template literal writes as backslash-n. *)
Definition LF : string := String lf_char EmptyString.
(** The double quote character. *)
Definition DQ : string := String dq_char EmptyString.

Arguments LF : simpl never.
Arguments DQ : simpl never.

(** [`${port}`] for an integer-valued number: its decimal numeral.  This
    is what JavaScript writes for the integers it represents exactly,
    those of absolute value up to 2^53 - 1; larger numbers are rounded,
    and from 1e21 on written with an exponent, and are not in the domain
    of this function. *)
Definition string_of_number (n : Z) : string :=
  NilZero.string_of_int (Z.to_int n).

(** [Array.prototype.join]. *)
Definition join (sep : string) (l : list string) : string :=
  String.concat sep l.

(** [acc += f x] for each [x], as [forEach] and [for ... of] run it. *)
Definition forEach {A : Type} (l : list A) (body : A -> string -> string)
  (acc : string) : string :=
  fold_left (fun acc x => body x acc) l acc.

(* ================================================================= *)
(** ** Data model (types/nexlayer.ts) *)

Record SecretConfig := mkSecret {
  secret_name : string;
  data : string;
  mountPath : string;
  fileName : string
}.

Record PodConfig := mkPod {
  name : string;
  image : string;
  servicePorts : option (list Z);
  vars : option (list (string * string));
  secrets : option (list SecretConfig)
}.

(** The [application] object of a [NexlayerYaml]. *)
Record Application := mkApplication {
  app_name : string;
  pods : list PodConfig
}.

Record NexlayerYaml := mkYaml {
  application : Application
}.

Record GenerateNexlayerYamlParams := mkParams {
  applicationName : string;
  params_pods : list PodConfig;
  outputPath : option string
}.

(** [x && x.length > 0] on an optional array: [undefined] is falsy. *)
Definition present_nonempty {A : Type} (o : option (list A)) : bool :=
  match o with
  | Some (_ :: _) => true
  | _ => false
  end.

(** The elements a loop over an optional array visits once the guard
    [present_nonempty] has passed. *)
Definition elements {A : Type} (o : option (list A)) : list A :=
  match o with
  | Some l => l
  | None => []
  end.

(* ================================================================= *)
(** ** NexlayerApiClient.yamlToString and generateYaml *)

Module NexlayerApiClient.

(** The body of [pod.servicePorts.forEach]. *)
Definition port_step (port : Z) (yamlString : string) : string :=
  yamlString ++ ("        - " ++ string_of_number port ++ LF).

(** The body of [Object.entries(pod.vars).forEach]. *)
Definition var_step (kv : string * string) (yamlString : string) : string :=
  let (key, value) := kv in
  yamlString ++ ("        " ++ key ++ ": " ++ DQ ++ value ++ DQ ++ LF).

(** The body of [pod.secrets.forEach]: four appends. *)
Definition secret_step (secret : SecretConfig) (yamlString : string) : string :=
  let yamlString :=
    yamlString ++ ("        - name: " ++ DQ ++ secret_name secret ++ DQ ++ LF) in
  let yamlString :=
    yamlString ++ ("          data: " ++ DQ ++ data secret ++ DQ ++ LF) in
  let yamlString :=
    yamlString ++ ("          mountPath: " ++ DQ ++ mountPath secret ++ DQ ++ LF) in
  let yamlString :=
    yamlString ++ ("          fileName: " ++ DQ ++ fileName secret ++ DQ ++ LF) in
  yamlString.

(** The body of [yaml.application.pods.forEach]. *)
Definition pod_step (pod : PodConfig) (yamlString : string) : string :=
  let yamlString :=
    yamlString ++ ("    - name: " ++ DQ ++ name pod ++ DQ ++ LF) in
  let yamlString :=
    yamlString ++ ("      image: " ++ DQ ++ image pod ++ DQ ++ LF) in
  let yamlString :=
    if present_nonempty (servicePorts pod) then
      forEach (elements (servicePorts pod)) port_step
        (yamlString ++ ("      servicePorts:" ++ LF))
    else yamlString in
  let yamlString :=
    if present_nonempty (vars pod) then
      forEach (elements (vars pod)) var_step
        (yamlString ++ ("      vars:" ++ LF))
    else yamlString in
  let yamlString :=
    if present_nonempty (secrets pod) then
      forEach (elements (secrets pod)) secret_step
        (yamlString ++ ("      secrets:" ++ LF))
    else yamlString in
  yamlString.

Definition yamlToString (yaml : NexlayerYaml) : string :=
  let yamlString := "application:" ++ LF in
  let yamlString :=
    yamlString ++ ("  name: " ++ DQ ++ app_name (application yaml) ++ DQ ++ LF) in
  let yamlString := yamlString ++ ("  pods:" ++ LF) in
  forEach (pods (application yaml)) pod_step yamlString.

Definition generateYaml (applicationName : string) (pods : list PodConfig)
  : string :=
  let yaml := mkYaml (mkApplication applicationName pods) in
  yamlToString yaml.

End NexlayerApiClient.

(* ================================================================= *)
(** ** FileGenerator.generateNexlayerYaml *)

Module FileGenerator.

Definition port_step (port : Z) (yaml : string) : string :=
  yaml ++ (LF ++ "      - " ++ string_of_number port).

Definition var_step (kv : string * string) (yaml : string) : string :=
  let (key, value) := kv in
  yaml ++ (LF ++ "      " ++ key ++ ": " ++ value).

Definition pod_step (pod : PodConfig) (yaml : string) : string :=
  let yaml := yaml ++ (LF ++ "  - name: " ++ name pod) in
  let yaml := yaml ++ (LF ++ "    image: " ++ image pod) in
  let yaml :=
    if present_nonempty (servicePorts pod) then
      forEach (elements (servicePorts pod)) port_step
        (yaml ++ (LF ++ "    servicePorts:"))
    else yaml in
  let yaml :=
    if present_nonempty (vars pod) then
      forEach (elements (vars pod)) var_step
        (yaml ++ (LF ++ "    vars:"))
    else yaml in
  yaml.

Definition generateNexlayerYaml (params : GenerateNexlayerYamlParams) : string :=
  let yaml :=
    "application:" ++ LF ++
    "  name: " ++ applicationName params ++ LF ++
    "  description: " ++ applicationName params ++ " application" ++ LF ++
    LF ++
    "pods:" in
  forEach (params_pods params) pod_step yaml.

End FileGenerator.

(** A call of a method ends by returning a value or by throwing. *)
Inductive outcome (A : Type) : Type :=
| Returned (value : A)
| Thrown (message : string).
Arguments Returned {A} value.
Arguments Thrown {A} message.

(** A call of [client.generateYaml(name, pods)].  Neither [generateYaml] nor
    [yamlToString] has a [throw], a guard or an early [return]: on arguments
    of the declared types every call returns the rendered text. *)
Definition generateYaml_call (applicationName : string) (pods : list PodConfig)
  : outcome string :=
  Returned (NexlayerApiClient.generateYaml applicationName pods).

(* ================================================================= *)
(** ** The manifest layout, line by line

    A second description of both serializers, following the layout of the
    textual manifest format: the lines of each block, in order.  The
    refinement lemmas below show that the accumulating loops above write
    exactly these lines. *)

Definition quoted (s : string) : string := DQ ++ s ++ DQ.

(** Every line ends with a line feed. *)
Definition unlines (ls : list string) : string :=
  String.concat EmptyString (map (fun l => l ++ LF) ls).

(** Every line is preceded by a line feed. *)
Definition separated (ls : list string) : string :=
  String.concat EmptyString (map (fun l => LF ++ l) ls).

(** A block that is written only for a present, non-empty collection: its
    header line, then the lines of each entry. *)
Definition section {A : Type} (header : string) (entry : A -> list string)
  (o : option (list A)) : list string :=
  match o with
  | Some (x :: l) => header :: flat_map entry (x :: l)
  | _ => []
  end.

Module Layout.

Definition ports_header : string := "      servicePorts:".
Definition vars_header : string := "      vars:".
Definition secrets_header : string := "      secrets:".

Definition port_line (port : Z) : string :=
  "        - " ++ string_of_number port.

Definition var_line (kv : string * string) : string :=
  "        " ++ fst kv ++ ": " ++ quoted (snd kv).

Definition secret_lines (s : SecretConfig) : list string :=
  [ "        - name: " ++ quoted (secret_name s);
    "          data: " ++ quoted (data s);
    "          mountPath: " ++ quoted (mountPath s);
    "          fileName: " ++ quoted (fileName s) ].

Definition name_line (pod : PodConfig) : string :=
  "    - name: " ++ quoted (name pod).

Definition image_line (pod : PodConfig) : string :=
  "      image: " ++ quoted (image pod).

Definition ports_section (pod : PodConfig) : list string :=
  section ports_header (fun p => [port_line p]) (servicePorts pod).

Definition vars_section (pod : PodConfig) : list string :=
  section vars_header (fun kv => [var_line kv]) (vars pod).

Definition secrets_section (pod : PodConfig) : list string :=
  section secrets_header secret_lines (secrets pod).

(** Field order within a pod block: name, image, servicePorts, vars,
    secrets. *)
Definition pod_lines (pod : PodConfig) : list string :=
  (name_line pod :: image_line pod :: ports_section pod)
    ++ vars_section pod ++ secrets_section pod.

Definition yaml_lines (yaml : NexlayerYaml) : list string :=
  "application:"
    :: ("  name: " ++ quoted (app_name (application yaml)))
    :: "  pods:"
    :: flat_map pod_lines (pods (application yaml)).

End Layout.

(** The layout [FileGenerator.generateNexlayerYaml] writes: scalars are not
    quoted, [pods] is a top-level key, and lines are separated (not
    terminated) by line feeds. *)
Module FileLayout.

Definition ports_header : string := "    servicePorts:".
Definition vars_header : string := "    vars:".

Definition port_line (port : Z) : string :=
  "      - " ++ string_of_number port.

Definition var_line (kv : string * string) : string :=
  "      " ++ fst kv ++ ": " ++ snd kv.

Definition name_line (pod : PodConfig) : string := "  - name: " ++ name pod.
Definition image_line (pod : PodConfig) : string := "    image: " ++ image pod.

Definition ports_section (pod : PodConfig) : list string :=
  section ports_header (fun p => [port_line p]) (servicePorts pod).

Definition vars_section (pod : PodConfig) : list string :=
  section vars_header (fun kv => [var_line kv]) (vars pod).

Definition pod_lines (pod : PodConfig) : list string :=
  (name_line pod :: image_line pod :: ports_section pod) ++ vars_section pod.

Definition description_line (params : GenerateNexlayerYamlParams) : string :=
  "  description: " ++ applicationName params ++ " application".

Definition header_lines (params : GenerateNexlayerYamlParams) : list string :=
  [ "application:";
    "  name: " ++ applicationName params;
    description_line params;
    EmptyString;
    "pods:" ].

Definition file_lines (params : GenerateNexlayerYamlParams) : list string :=
  header_lines params ++ flat_map pod_lines (params_pods params).

End FileLayout.



(* ================================================================= *)
(** ** Reading a text: lines, prefixes, occurrences *)

(** [text.split] at line feeds. *)
Fixpoint split_lines (s : string) : list string :=
  match s with
  | EmptyString => [EmptyString]
  | String c s' =>
      if Ascii.eqb c lf_char then EmptyString :: split_lines s'
      else match split_lines s' with
           | [] => [String c EmptyString]
           | l :: ls => String c l :: ls
           end
  end.

(** [strip_prefix p s] is what follows [p] in [s], when [s] starts with [p]. *)
Fixpoint strip_prefix (p s : string) : option string :=
  match p with
  | EmptyString => Some s
  | String a p' =>
      match s with
      | String b s' => if Ascii.eqb a b then strip_prefix p' s' else None
      | EmptyString => None
      end
  end.

Definition starts_with (p s : string) : bool :=
  match strip_prefix p s with
  | Some _ => true
  | None => false
  end.

Fixpoint has_char (c : ascii) (s : string) : bool :=
  match s with
  | EmptyString => false
  | String a s' => Ascii.eqb a c || has_char c s'
  end.

(** [haystack.includes(needle)]. *)
Fixpoint includes (needle haystack : string) : bool :=
  starts_with needle haystack ||
  match haystack with
  | EmptyString => false
  | String _ h' => includes needle h'
  end.

Definition eight_spaces : string := "        ".
Definition six_spaces : string := "      ".

(** [differs key l]: the line [l] is not the line [key]. *)
Definition differs (key l : string) : Prop := String.eqb l key = false.

Definition head_ok (P : string -> Prop) (ls : list string) : Prop :=
  match ls with
  | [] => True
  | l :: _ => P l
  end.

Definition nonempty_list {A : Type} (l : list A) : bool :=
  match l with
  | [] => false
  | _ :: _ => true
  end.

(* ================================================================= *)
(** ** Validity and structural equality of the data model *)

Definition nonempty (s : string) : bool :=
  match s with
  | EmptyString => false
  | String _ _ => true
  end.

Fixpoint distinct (l : list string) : bool :=
  match l with
  | [] => true
  | x :: l' => negb (existsb (String.eqb x) l') && distinct l'
  end.

Definition valid_port (port : Z) : bool :=
  ((1 <=? port) && (port <=? 65535))%Z.

Definition valid_secret (s : SecretConfig) : bool :=
  nonempty (secret_name s) && nonempty (mountPath s) && nonempty (fileName s).

Definition valid_pod (pod : PodConfig) : bool :=
  nonempty (name pod) && nonempty (image pod)
  && forallb valid_port (elements (servicePorts pod))
  && forallb nonempty (map fst (elements (vars pod)))
  && distinct (map fst (elements (vars pod)))
  && forallb valid_secret (elements (secrets pod)).

(** Modelled from the spec: the validity constraints of the data model
    (the repository has no validating constructor).  An application has a
    non-empty name and at least one pod; pod names are non-empty and
    unique; images are non-empty; ports lie in [1, 65535]; var names are
    non-empty and unique within a pod; a secret has a non-empty name,
    mount path and file name. *)
Definition spec_valid (yaml : NexlayerYaml) : bool :=
  nonempty (app_name (application yaml))
  && nonempty_list (pods (application yaml))
  && forallb valid_pod (pods (application yaml))
  && distinct (map name (pods (application yaml))).

(** Structural equality that ignores the order of the keys of [vars] and
    does not tell an absent collection from an empty one. *)
Definition pod_equal (p q : PodConfig) : Prop :=
  name p = name q /\ image p = image q
  /\ elements (servicePorts p) = elements (servicePorts q)
  /\ Permutation (elements (vars p)) (elements (vars q))
  /\ elements (secrets p) = elements (secrets q).

Definition structurally_equal (a b : NexlayerYaml) : Prop :=
  app_name (application a) = app_name (application b)
  /\ Forall2 pod_equal (pods (application a)) (pods (application b)).

(** An empty collection is rendered like an absent one; [canonical] makes
    it absent. *)
Definition canonical_field {A : Type} (o : option (list A)) : option (list A) :=
  match o with
  | Some (x :: l) => Some (x :: l)
  | _ => None
  end.

Definition canonical_pod (pod : PodConfig) : PodConfig :=
  mkPod (name pod) (image pod) (canonical_field (servicePorts pod))
        (canonical_field (vars pod)) (canonical_field (secrets pod)).

Definition canonical (yaml : NexlayerYaml) : NexlayerYaml :=
  mkYaml (mkApplication (app_name (application yaml))
                        (map canonical_pod (pods (application yaml)))).

(** Strings that stay on one line, and var names that in addition hold no
    colon. *)
Definition single_line (s : string) : bool := negb (has_char lf_char s).

Definition plain_key (k : string) : bool :=
  single_line k && negb (has_char colon_char k).

Definition single_line_var (kv : string * string) : bool :=
  plain_key (fst kv) && single_line (snd kv).

Definition single_line_secret (s : SecretConfig) : bool :=
  single_line (secret_name s) && single_line (data s)
  && single_line (mountPath s) && single_line (fileName s).

Definition single_line_pod (pod : PodConfig) : bool :=
  single_line (name pod) && single_line (image pod)
  && forallb single_line_var (elements (vars pod))
  && forallb single_line_secret (elements (secrets pod)).

(** A pod none of whose strings holds a line feed. *)
Definition line_free_var (kv : string * string) : bool :=
  single_line (fst kv) && single_line (snd kv).

Definition line_free_pod (pod : PodConfig) : bool :=
  single_line (name pod) && single_line (image pod)
  && forallb line_free_var (elements (vars pod))
  && forallb single_line_secret (elements (secrets pod)).

Definition single_line_yaml (yaml : NexlayerYaml) : bool :=
  single_line (app_name (application yaml))
  && forallb single_line_pod (pods (application yaml)).

(* ================================================================= *)
(** ** A parser for the manifest format

    Modelled from the spec: the reading direction of the textual manifest
    format.  The repository renders manifests and never reads one back;
    the functions of this module read the format line by line: a header
    of three lines, then pod blocks, each with its optional
    [servicePorts], [vars] and [secrets] blocks in that order. *)

Module Parser.

(** Sequencing of steps that may fail. *)
Definition and_then {A B : Type} (a : option A) (f : A -> option B)
  : option B :=
  match a with
  | Some x => f x
  | None => None
  end.

Notation "x <- a ;; b" := (and_then a (fun x => b))
  (at level 61, a at next level, right associativity).

Definition number_of_string (s : string) : option Z :=
  option_map Z.of_int (NilZero.int_of_string s).

(** Removes the closing quote of a quoted scalar. *)
Fixpoint strip_last_quote (s : string) : option string :=
  match s with
  | EmptyString => None
  | String c s' =>
      match s' with
      | EmptyString => if Ascii.eqb c dq_char then Some EmptyString else None
      | String _ _ => option_map (String c) (strip_last_quote s')
      end
  end.

Definition unquote (s : string) : option string :=
  match s with
  | String c s' => if Ascii.eqb c dq_char then strip_last_quote s' else None
  | EmptyString => None
  end.

(** The quoted scalar of the line [key "value"]. *)
Definition scalar_after (key line : string) : option string :=
  r <- strip_prefix key line ;; unquote r.

(** Splits at the first colon. *)
Fixpoint split_colon (s : string) : option (string * string) :=
  match s with
  | EmptyString => None
  | String c s' =>
      if Ascii.eqb c colon_char then Some (EmptyString, s')
      else kr <- split_colon s' ;; Some (String c (fst kr), snd kr)
  end.

Definition parse_port_line (line : string) : option Z :=
  r <- strip_prefix "        - " line ;; number_of_string r.

Definition parse_var_line (line : string) : option (string * string) :=
  r <- strip_prefix eight_spaces line ;;
  kr <- split_colon r ;;
  r <- strip_prefix " " (snd kr) ;;
  value <- unquote r ;;
  Some (fst kr, value).

(** The longest run of entry lines at the front, and what follows it. *)
Fixpoint parse_entries {A : Type} (parse_line : string -> option A)
  (ls : list string) : list A * list string :=
  match ls with
  | [] => ([], [])
  | l :: ls' =>
      match parse_line l with
      | Some x => let (xs, rest) := parse_entries parse_line ls' in (x :: xs, rest)
      | None => ([], ls)
      end
  end.

Fixpoint parse_secrets (ls : list string) : list SecretConfig * list string :=
  match ls with
  | l1 :: l2 :: l3 :: l4 :: ls' =>
      match scalar_after "        - name: " l1,
            scalar_after "          data: " l2,
            scalar_after "          mountPath: " l3,
            scalar_after "          fileName: " l4 with
      | Some n, Some d, Some m, Some f =>
          let (ss, rest) := parse_secrets ls' in (mkSecret n d m f :: ss, rest)
      | _, _, _, _ => ([], ls)
      end
  | _ => ([], ls)
  end.

(** An optional block: present exactly when its header line is next. *)
Definition parse_section {A : Type} (header : string)
  (entries : list string -> list A * list string) (ls : list string)
  : option (list A) * list string :=
  match ls with
  | l :: ls' =>
      if String.eqb l header
      then let (xs, rest) := entries ls' in (Some xs, rest)
      else (None, ls)
  | [] => (None, [])
  end.

(** The pod blocks up to the end of the text.  Each block takes at least
    two lines, so a fuel of one more than the number of lines suffices. *)
Fixpoint parse_pods (fuel : nat) (ls : list string) : option (list PodConfig) :=
  match fuel with
  | O => None
  | S fuel' =>
      match ls with
      | [] => Some []
      | [l] => if nonempty l then None else Some []
      | l1 :: l2 :: rest =>
          n <- scalar_after "    - name: " l1 ;;
          i <- scalar_after "      image: " l2 ;;
          let (ports, rest) :=
            parse_section Layout.ports_header (parse_entries parse_port_line) rest in
          let (vars, rest) :=
            parse_section Layout.vars_header (parse_entries parse_var_line) rest in
          let (secrets, rest) :=
            parse_section Layout.secrets_header parse_secrets rest in
          ps <- parse_pods fuel' rest ;;
          Some (mkPod n i ports vars secrets :: ps)
      end
  end.

(** Modelled from the spec: [parse], the inverse of rendering, which the
    repository does not implement.  It reads the textual manifest format
    with [pods] nested under [application], as [yamlToString] writes it,
    and fails ([None], the spec's ParseError) on a missing required key,
    an unterminated quoted value or any line out of place. *)
Definition parse (text : string) : option NexlayerYaml :=
  match split_lines text with
  | l0 :: l1 :: l2 :: rest =>
      if String.eqb l0 "application:" && String.eqb l2 "  pods:" then
        n <- scalar_after "  name: " l1 ;;
        ps <- parse_pods (S (length rest)) rest ;;
        Some (mkYaml (mkApplication n ps))
      else None
  | _ => None
  end.

(** A line that does not start with eight spaces ends a run of entries. *)
Definition shallow (l : string) : Prop := strip_prefix eight_spaces l = None.

(** ... and a line that is in addition not [header] lets the parser see
    that the block of [header] is absent. *)
Definition below (header l : string) : Prop :=
  shallow l /\ String.eqb l header = false.

(** The lines that follow the header of a manifest: the pod blocks and
    the empty piece after the last line feed. *)
Definition pods_tail (ps : list PodConfig) : list string :=
  (flat_map Layout.pod_lines ps ++ [EmptyString])%list.

End Parser.

(* ================================================================= *)
(** ** The cached client (index.ts) *)

Record NexlayerConfig := mkConfig {
  sessionToken : option string;
  baseUrl : option string
}.

(** A constructed [NexlayerApiClient]: the configuration it keeps and the
    base URL its HTTP client was created with.  [instance] tells two
    objects apart: it is the number of clients allocated before this one. *)
Record Client := mkClient {
  instance : nat;
  config : NexlayerConfig;
  baseURL : string
}.

(** [a || b] on an optional string: [undefined] and the empty string are
    falsy. *)
Definition or_else (a : option string) (b : string) : string :=
  match a with
  | Some (String c s) => String c s
  | _ => b
  end.

(** [new NexlayerApiClient(config)]. *)
Definition new_client (fresh : nat) (cfg : NexlayerConfig) : Client :=
  mkClient fresh cfg (or_else (baseUrl cfg) "https://app.nexlayer.io").

(** The module-level variable [nexlayerClient], with the allocation count
    that gives objects their identity. *)
Record Server := mkServer {
  nexlayerClient : option Client;
  allocated : nat
}.

Definition initial_server : Server := mkServer None 0.

Definition getClient (token : option string) (st : Server) : Client * Server :=
  match nexlayerClient st with
  | None =>
      let c := new_client (allocated st)
                 (mkConfig token (Some "https://app.nexlayer.io")) in
      (c, mkServer (Some c) (S (allocated st)))
  | Some c => (c, st)
  end.

(** The clients a sequence of [getClient] calls returns, and the final
    state. *)
Fixpoint getClient_calls (tokens : list (option string)) (st : Server)
  : list Client * Server :=
  match tokens with
  | [] => ([], st)
  | t :: ts =>
      let (c, st1) := getClient t st in
      let (cs, st2) := getClient_calls ts st1 in
      (c :: cs, st2)
  end.

(* ================================================================= *)
(** ** Validation through the remote endpoint *)

Record ValidationResult := mkResult {
  valid : bool;
  errors : option (list string);
  warnings : option (list string)
}.

(** What the POST to [/validate] resolves to: a response whose [data.data]
    is the result, or a rejection carrying [error.response?.data?.error]
    and [error.message]. *)
Inductive HttpReply :=
| Response (body : ValidationResult)
| Rejected (response_error : option string) (message : string).

Section Remote.

(** The deployment platform, as seen through [this.client.post]. *)
Variable post_validate : string -> HttpReply.

(** [NexlayerApiClient.validateYaml]. *)
Definition validateYaml (yamlContent : string) : outcome ValidationResult :=
  match post_validate yamlContent with
  | Response body => Returned body
  | Rejected response_error message =>
      Thrown ("Failed to validate YAML: " ++ or_else response_error message)
  end.

(** The text the [validate-yaml] tool answers with. *)
Definition validate_yaml_tool (yamlContent : string) : string :=
  match validateYaml yamlContent with
  | Returned result =>
      if valid result then
        "YAML is valid!" ++
        (if present_nonempty (warnings result)
         then LF ++ "Warnings: " ++ join ", " (elements (warnings result))
         else EmptyString)
      else
        "YAML validation failed:" ++ LF ++ "Errors: " ++
        or_else (option_map (join LF) (errors result)) "Unknown error"
  | Thrown message => "Failed to validate YAML: " ++ message
  end.

End Remote.

(* ================================================================= *)
(** ** JavaScript truthiness and failure *)

(** A string used as a condition: [undefined] and the empty string are
    falsy. *)
Definition truthy (o : option string) : bool :=
  match o with
  | Some (String _ _) => true
  | _ => false
  end.

(** [n || d] on an optional number: [undefined] and [0] are falsy. *)
Definition number_or (n : option Z) (d : Z) : Z :=
  match n with
  | Some 0%Z => d
  | Some p => p
  | None => d
  end.

(** Running [k] on the value of a call that may throw. *)
Definition and_then_do {A B : Type} (a : outcome A) (k : A -> outcome B)
  : outcome B :=
  match a with
  | Returned x => k x
  | Thrown message => Thrown message
  end.


(** The lines of a text strictly between its first and its last line. *)
Definition inner_lines (ls : list string) : list string :=
  removelast (tl ls).

(* ================================================================= *)
(** ** FileGenerator.generateDockerfile and its templates *)

Module Dockerfiles.

Record GenerateDockerfileParams := mkDockerfileParams {
  name : string;
  type : string;
  baseImage : option string;
  port : option Z;
  buildCommand : option string;
  startCommand : option string;
  dependencies : option (list string);
  customDockerfile : option string
}.

Definition generateNodeDockerfile (name : string) (port : Z)
  (buildCommand startCommand : option string)
  (dependencies : option (list string)) : string :=
  join LF
    [ "FROM node:18-alpine";
      EmptyString;
      "WORKDIR /app";
      EmptyString;
      "COPY package*.json ./";
      EmptyString;
      "RUN npm install"
        ++ match dependencies with
           | Some ds => " && npm install " ++ join " " ds
           | None => EmptyString
           end;
      EmptyString;
      "COPY . .";
      EmptyString;
      match buildCommand with
      | Some (String c s) => "RUN " ++ String c s
      | _ => EmptyString
      end;
      EmptyString;
      "EXPOSE " ++ string_of_number port;
      EmptyString;
      "CMD [" ++ DQ ++ or_else startCommand "npm start" ++ DQ ++ "]" ].

Definition generateReactDockerfile (name : string) (port : Z)
  : string :=
  join LF
    [ "FROM node:18-alpine as build";
      EmptyString;
      "WORKDIR /app";
      EmptyString;
      "COPY package*.json ./";
      EmptyString;
      "RUN npm install";
      EmptyString;
      "COPY . .";
      EmptyString;
      "RUN npm run build";
      EmptyString;
      "FROM nginx:alpine";
      EmptyString;
      "COPY --from=build /app/build /usr/share/nginx/html";
      EmptyString;
      "COPY nginx.conf /etc/nginx/conf.d/default.conf";
      EmptyString;
      "EXPOSE " ++ string_of_number port;
      EmptyString;
      "CMD [" ++ DQ ++ "nginx" ++ DQ ++ ", " ++ DQ ++ "-g" ++ DQ ++ ", "
        ++ DQ ++ "daemon off;" ++ DQ ++ "]" ].

Definition generateNextDockerfile (name : string) (port : Z)
  : string :=
  join LF
    [ "FROM node:18-alpine";
      EmptyString;
      "WORKDIR /app";
      EmptyString;
      "COPY package*.json ./";
      EmptyString;
      "RUN npm install";
      EmptyString;
      "COPY . .";
      EmptyString;
      "RUN npm run build";
      EmptyString;
      "EXPOSE " ++ string_of_number port;
      EmptyString;
      "CMD [" ++ DQ ++ "npm" ++ DQ ++ ", " ++ DQ ++ "start" ++ DQ ++ "]" ].

Definition generateVueDockerfile (name : string) (port : Z)
  : string :=
  join LF
    [ "FROM node:18-alpine as build";
      EmptyString;
      "WORKDIR /app";
      EmptyString;
      "COPY package*.json ./";
      EmptyString;
      "RUN npm install";
      EmptyString;
      "COPY . .";
      EmptyString;
      "RUN npm run build";
      EmptyString;
      "FROM nginx:alpine";
      EmptyString;
      "COPY --from=build /app/dist /usr/share/nginx/html";
      EmptyString;
      "EXPOSE " ++ string_of_number port;
      EmptyString;
      "CMD [" ++ DQ ++ "nginx" ++ DQ ++ ", " ++ DQ ++ "-g" ++ DQ ++ ", "
        ++ DQ ++ "daemon off;" ++ DQ ++ "]" ].

Definition generatePythonDockerfile (name : string) (port : Z) (baseImage : option string)
  (dependencies : option (list string))
  : string :=
  let image := or_else baseImage "python:3.11-slim" in
  let deps :=
    match dependencies with
    | Some ds => join " " ds
    | None => "flask"
    end in
  join LF
    [ "FROM " ++ image;
      EmptyString;
      "WORKDIR /app";
      EmptyString;
      "COPY requirements.txt .";
      EmptyString;
      "RUN pip install " ++ deps;
      EmptyString;
      "COPY . .";
      EmptyString;
      "EXPOSE " ++ string_of_number port;
      EmptyString;
      "CMD [" ++ DQ ++ "python" ++ DQ ++ ", " ++ DQ ++ "app.py" ++ DQ ++ "]" ].

Definition generateGoDockerfile (name : string) (port : Z) (baseImage : option string)
  : string :=
  let image := or_else baseImage "golang:1.21-alpine" in
  join LF
    [ "FROM " ++ image ++ " as builder";
      EmptyString;
      "WORKDIR /app";
      EmptyString;
      "COPY go.mod go.sum ./";
      EmptyString;
      "RUN go mod download";
      EmptyString;
      "COPY . .";
      EmptyString;
      "RUN go build -o main .";
      EmptyString;
      "FROM alpine:latest";
      EmptyString;
      "WORKDIR /app";
      EmptyString;
      "COPY --from=builder /app/main .";
      EmptyString;
      "EXPOSE " ++ string_of_number port;
      EmptyString;
      "CMD [" ++ DQ ++ "./main" ++ DQ ++ "]" ].

Definition generateRustDockerfile (name : string) (port : Z) (baseImage : option string)
  : string :=
  let image := or_else baseImage "rust:1.75-alpine" in
  join LF
    [ "FROM " ++ image ++ " as builder";
      EmptyString;
      "WORKDIR /app";
      EmptyString;
      "COPY Cargo.toml Cargo.lock ./";
      EmptyString;
      "RUN cargo build --release";
      EmptyString;
      "FROM alpine:latest";
      EmptyString;
      "WORKDIR /app";
      EmptyString;
      "COPY --from=builder /app/target/release/" ++ name ++ " .";
      EmptyString;
      "EXPOSE " ++ string_of_number port;
      EmptyString;
      "CMD [" ++ DQ ++ "./" ++ name ++ DQ ++ "]" ].

Definition generatePhpDockerfile (name : string) (port : Z) (baseImage : option string)
  : string :=
  let image := or_else baseImage "php:8.2-apache" in
  join LF
    [ "FROM " ++ image;
      EmptyString;
      "WORKDIR /var/www/html";
      EmptyString;
      "COPY . .";
      EmptyString;
      "EXPOSE " ++ string_of_number port;
      EmptyString;
      "CMD [" ++ DQ ++ "apache2-foreground" ++ DQ ++ "]" ].

Definition generateJavaDockerfile (name : string) (port : Z) (baseImage : option string)
  : string :=
  let image := or_else baseImage "openjdk:17-jdk-alpine" in
  join LF
    [ "FROM " ++ image;
      EmptyString;
      "WORKDIR /app";
      EmptyString;
      "COPY target/" ++ name ++ ".jar app.jar";
      EmptyString;
      "EXPOSE " ++ string_of_number port;
      EmptyString;
      "CMD [" ++ DQ ++ "java" ++ DQ ++ ", " ++ DQ ++ "-jar" ++ DQ ++ ", "
        ++ DQ ++ "app.jar" ++ DQ ++ "]" ].

Definition generateDotnetDockerfile (name : string) (port : Z) (baseImage : option string)
  : string :=
  let image := or_else baseImage "mcr.microsoft.com/dotnet/aspnet:7.0" in
  join LF
    [ "FROM " ++ image;
      EmptyString;
      "WORKDIR /app";
      EmptyString;
      "COPY bin/Release/net7.0/publish .";
      EmptyString;
      "EXPOSE " ++ string_of_number port;
      EmptyString;
      "CMD [" ++ DQ ++ "dotnet" ++ DQ ++ ", " ++ DQ ++ name ++ ".dll" ++ DQ
        ++ "]" ].

(** The types the [switch] of [generateDockerfile] has a case for. *)
Definition supported_types : list string :=
  [ "node"; "react"; "next"; "nextjs"; "vue"; "python"; "go"; "rust";
    "php"; "java"; "dotnet" ].

Definition generateDockerfile (params : GenerateDockerfileParams)
  : outcome string :=
  let port := match port params with Some p => p | None => 3000%Z end in
  match customDockerfile params with
  | Some (String c s) => Returned (String c s)
  | _ =>
      let t := type params in
      if String.eqb t "node" then
        Returned (generateNodeDockerfile (name params) port
                    (buildCommand params) (startCommand params)
                    (dependencies params))
      else if String.eqb t "react" then
        Returned (generateReactDockerfile (name params) port)
      else if String.eqb t "next" || String.eqb t "nextjs" then
        Returned (generateNextDockerfile (name params) port)
      else if String.eqb t "vue" then
        Returned (generateVueDockerfile (name params) port)
      else if String.eqb t "python" then
        Returned (generatePythonDockerfile (name params) port
                    (baseImage params) (dependencies params))
      else if String.eqb t "go" then
        Returned (generateGoDockerfile (name params) port (baseImage params))
      else if String.eqb t "rust" then
        Returned (generateRustDockerfile (name params) port (baseImage params))
      else if String.eqb t "php" then
        Returned (generatePhpDockerfile (name params) port (baseImage params))
      else if String.eqb t "java" then
        Returned (generateJavaDockerfile (name params) port (baseImage params))
      else if String.eqb t "dotnet" then
        Returned (generateDotnetDockerfile (name params) port (baseImage params))
      else Thrown ("Unsupported application type: " ++ t)
  end.

(** [port = 3000] in the destructuring: the default replaces a missing
    port only. *)
Definition exposed_port (params : GenerateDockerfileParams) : Z :=
  match port params with
  | Some p => p
  | None => 3000%Z
  end.

(** The types whose template has no use for [baseImage], and those whose
    [FROM] line it decides. *)
Definition fixed_image_types : list string :=
  [ "node"; "react"; "next"; "nextjs"; "vue" ].

Definition base_image_types : list string :=
  [ "python"; "go"; "rust"; "php"; "java"; "dotnet" ].

(** What follows the image in the first line of the two-stage templates. *)
Definition builder_suffix (type : string) : string :=
  if String.eqb type "go" || String.eqb type "rust" then " as builder"
  else EmptyString.

Definition with_baseImage (b : option string) (params : GenerateDockerfileParams)
  : GenerateDockerfileParams :=
  mkDockerfileParams (name params) (type params) b (port params)
    (buildCommand params) (startCommand params) (dependencies params)
    (customDockerfile params).

(** The parameters the callers of this repository pass: a name, a type and
    a port. *)
Definition plain_params (name type : string) (port : Z)
  : GenerateDockerfileParams :=
  mkDockerfileParams name type None (Some port) None None None None.

End Dockerfiles.

(* ================================================================= *)
(** ** Project analysis (index.ts) *)

Module ProjectAnalysis.












End ProjectAnalysis.

(* ================================================================= *)
(** ** Running commands (index.ts) *)

Module Commands.

(** A finished child process: the chunks it wrote to its two streams, in
    order, and the code its [close] event carries ([None] is [null]).  A
    program that cannot be started emits no [close] event; the promise of
    [executeCommand] then never resolves, and no [ProcessRun] stands for
    it. *)
Record ProcessRun := mkRun {
  stdout : list string;
  stderr : list string;
  exit_code : option Z
}.

Record CommandResult := mkCommandResult {
  output : string;
  error : string
}.

(** [`${code}`]. *)
Definition string_of_code (code : option Z) : string :=
  match code with
  | Some n => string_of_number n
  | None => "null"
  end.

(** What the promise of [executeCommand] resolves to. *)
Definition executeCommand (run : ProcessRun) : CommandResult :=
  let output := forEach (stdout run) (fun chunk acc => acc ++ chunk) EmptyString in
  let error := forEach (stderr run) (fun chunk acc => acc ++ chunk) EmptyString in
  match exit_code run with
  | Some 0%Z => mkCommandResult output error
  | code =>
      mkCommandResult output
        (or_else (Some error) ("Process exited with code " ++ string_of_code code))
  end.

(** A run that ends with code 0 and has written nothing to its error
    stream. *)
Definition quiet (run : ProcessRun) : bool :=
  match exit_code run with
  | Some 0%Z => forallb (fun chunk => negb (nonempty chunk)) (stderr run)
  | _ => false
  end.

Record BuildAndPushParams := mkBuildAndPushParams {
  imageName : string;
  dockerfilePath : string;
  registry : option string;
  tag : option string
}.

(** [x = d] in a destructuring: the default replaces [undefined] only. *)
Definition default_to (o : option string) (d : string) : string :=
  match o with
  | Some s => s
  | None => d
  end.

Definition full_image_name (params : BuildAndPushParams) : string :=
  default_to (registry params) "ttl.sh" ++ "/" ++ imageName params ++ ":"
    ++ default_to (tag params) "1h".

Definition build_arguments (params : BuildAndPushParams) : list string :=
  ["build"; "-t"; full_image_name params; "-f"; dockerfilePath params; "."].

Definition push_arguments (params : BuildAndPushParams) : list string :=
  ["push"; full_image_name params].

Section Docker.

(** The [docker] program: the process each argument list leads to. *)
Variable docker : list string -> ProcessRun.

(** The [build-and-push-docker] tool: the argument lists it runs [docker]
    with, in order, and the text it answers with. *)
Definition build_and_push_docker (params : BuildAndPushParams)
  : list (list string) * string :=
  let registry := default_to (registry params) "ttl.sh" in
  let tag := default_to (tag params) "1h" in
  let fullImageName := registry ++ "/" ++ imageName params ++ ":" ++ tag in
  let build := ["build"; "-t"; fullImageName; "-f"; dockerfilePath params; "."] in
  let buildResult := executeCommand (docker build) in
  if nonempty (error buildResult) then
    ([build],
     "Failed to build and push Docker image: "
       ++ "Docker build failed: " ++ error buildResult)
  else
    let push := ["push"; fullImageName] in
    let pushResult := executeCommand (docker push) in
    if nonempty (error pushResult) then
      ([build; push],
       "Failed to build and push Docker image: "
         ++ "Docker push failed: " ++ error pushResult)
    else
      ([build; push],
       "Successfully built and pushed Docker image: " ++ fullImageName
         ++ LF ++ LF ++ "Build output:" ++ LF ++ output buildResult
         ++ LF ++ LF ++ "Push output:" ++ LF ++ output pushResult).

End Docker.

End Commands.

(* ================================================================= *)
(** ** The API client and the tools that call it *)

Module Api.

(** The requests the client sends: a POST of YAML text, a POST of a JSON
    object and a GET with query parameters. *)
Inductive Request :=
| PostYaml (path body : string)
| PostJson (path : string) (body : list (string * string))
| GetQuery (path : string) (query : list (string * string)).

(** What a request resolves to: the [data.data] of the response, or a
    rejection with [error.response?.data?.error] and [error.message]. *)
Inductive Reply (A : Type) :=
| Answered (data : A)
| Refused (response_error : option string) (message : string).
Arguments Answered {A} data.
Arguments Refused {A} response_error message.

Record DeploymentResult := mkDeploymentResult {
  sessionToken : string;
  applicationName : string;
  status : string;
  url : option string
}.

Record Reservation := mkReservation {
  reservation_token : string;
  reservation_application : string;
  createdAt : string;
  expiresAt : string
}.

(** The body of every method: the reply's data, or an [Error] whose
    message names the operation. *)
Definition request {A : Type} (failure : string) (reply : Reply A) : outcome A :=
  match reply with
  | Answered data => Returned data
  | Refused response_error message =>
      Thrown (failure ++ ": " ++ or_else response_error message)
  end.

Section Remote.

Variable deployments : Request -> Reply DeploymentResult.
Variable acknowledgements : Request -> Reply unit.
Variable reservation_lists : Request -> Reply (list Reservation).

Definition startUserDeployment (yamlContent : string)
  (sessionToken : option string) : outcome DeploymentResult :=
  request "Failed to start deployment"
    (deployments (PostYaml "/startUserDeployment" yamlContent)).

Definition extendDeployment (sessionToken applicationName : string)
  : outcome DeploymentResult :=
  request "Failed to extend deployment"
    (deployments (PostJson "/extendDeployment"
                    [("sessionToken", sessionToken);
                     ("applicationName", applicationName)])).

Definition claimDeployment (sessionToken applicationName : string)
  : outcome DeploymentResult :=
  request "Failed to claim deployment"
    (deployments (PostJson "/claimDeployment"
                    [("sessionToken", sessionToken);
                     ("applicationName", applicationName)])).

Definition addDeploymentReservation (sessionToken applicationName : string)
  : outcome unit :=
  request "Failed to add deployment reservation"
    (acknowledgements (PostJson "/addDeploymentReservation"
                         [("sessionToken", sessionToken);
                          ("applicationName", applicationName)])).

Definition removeDeploymentReservation (sessionToken applicationName : string)
  : outcome unit :=
  request "Failed to remove deployment reservation"
    (acknowledgements (PostJson "/removeDeploymentReservation"
                         [("sessionToken", sessionToken);
                          ("applicationName", applicationName)])).

Definition getReservations (sessionToken : string)
  : outcome (list Reservation) :=
  request "Failed to get reservations"
    (reservation_lists (GetQuery "/getReservations"
                          [("sessionToken", sessionToken)])).

(** *** deploy-application *)

Record DeployApplicationParams := mkDeployParams {
  deploy_name : string;
  deploy_image : string;
  deploy_ports : option (list Z);
  deploy_vars : option (list (string * string));
  deploy_token : option string
}.

Definition deploy_pods (params : DeployApplicationParams) : list PodConfig :=
  [ mkPod (deploy_name params) (deploy_image params)
      (Some (match deploy_ports params with
             | Some ports => ports
             | None => [3000%Z]
             end))
      (Some (match deploy_vars params with
             | Some vars => vars
             | None => []
             end))
      None ].

Definition with_token (token : option string) (params : DeployApplicationParams)
  : DeployApplicationParams :=
  mkDeployParams (deploy_name params) (deploy_image params)
    (deploy_ports params) (deploy_vars params) token.

(** The tool, run in a server state: its text and the state it leaves. *)
Definition deploy_application (params : DeployApplicationParams) (st : Server)
  : string * Server :=
  let (client, st) := getClient (deploy_token params) st in
  let yamlContent :=
    NexlayerApiClient.generateYaml (deploy_name params) (deploy_pods params) in
  match startUserDeployment yamlContent (deploy_token params) with
  | Returned result =>
      ("Successfully deployed application " ++ quoted (deploy_name params)
         ++ "!" ++ LF ++ "Session Token: " ++ sessionToken result
         ++ LF ++ "Status: " ++ status result
         ++ LF ++ "URL: " ++ or_else (url result) "Deploying...",
       st)
  | Thrown message => ("Failed to deploy application: " ++ message, st)
  end.

(** *** manage-reservation *)

Definition manage_reservation (sessionToken applicationName action : string)
  (st : Server) : string * Server :=
  let (client, st) := getClient (Some sessionToken) st in
  if String.eqb action "add" then
    match addDeploymentReservation sessionToken applicationName with
    | Returned _ =>
        ("Successfully added reservation for " ++ quoted applicationName, st)
    | Thrown message =>
        ("Failed to " ++ action ++ " reservation: " ++ message, st)
    end
  else
    match removeDeploymentReservation sessionToken applicationName with
    | Returned _ =>
        ("Successfully removed reservation for " ++ quoted applicationName, st)
    | Thrown message =>
        ("Failed to " ++ action ++ " reservation: " ++ message, st)
    end.

(** *** get-reservations *)

Definition reservation_line (r : Reservation) : string :=
  "- " ++ reservation_application r ++ " (expires: " ++ expiresAt r ++ ")".

Definition get_reservations (sessionToken : string) (st : Server)
  : string * Server :=
  let (client, st) := getClient (Some sessionToken) st in
  match getReservations sessionToken with
  | Returned reservations =>
      let reservationList := join LF (map reservation_line reservations) in
      ("Reservations:" ++ LF
         ++ or_else (Some reservationList) "No reservations found",
       st)
  | Thrown message => ("Failed to get reservations: " ++ message, st)
  end.

End Remote.

End Api.

(* ================================================================= *)
(** ** The request behind validation *)

Module Validation.

(** [this.client.post('/validate', { yamlContent: params.yamlContent })]. *)
Definition validate_request (yamlContent : string) : Api.Request :=
  Api.PostJson "/validate" [("yamlContent", yamlContent)].

Section Platform.

(** The platform, as a whole: what it replies to each request. *)
Variable platform : Api.Request -> HttpReply.

(** [NexlayerApiClient.validateYaml] on that platform. *)
Definition request_validation (yamlContent : string)
  : outcome ValidationResult :=
  validateYaml (fun yaml => platform (validate_request yaml)) yamlContent.

(** The [validate-yaml] tool on that platform. *)
Definition validate_yaml (yamlContent : string) : string :=
  validate_yaml_tool (fun yaml => platform (validate_request yaml)) yamlContent.

End Platform.

End Validation.

(* ================================================================= *)
(** ** FileGenerator.generateFullStack *)

Module ProjectFiles.

Definition generateReactPackageJson (appName : string) : string :=
  join LF
    [ "{";
      "  " ++ DQ ++ "name" ++ DQ ++ ": " ++ DQ ++ appName ++ "-frontend"
        ++ DQ ++ ",";
      "  " ++ DQ ++ "version" ++ DQ ++ ": " ++ DQ ++ "0.1.0" ++ DQ ++ ",";
      "  " ++ DQ ++ "private" ++ DQ ++ ": true,";
      "  " ++ DQ ++ "dependencies" ++ DQ ++ ": {";
      "    " ++ DQ ++ "react" ++ DQ ++ ": " ++ DQ ++ "^18.2.0" ++ DQ ++ ",";
      "    " ++ DQ ++ "react-dom" ++ DQ ++ ": " ++ DQ ++ "^18.2.0" ++ DQ
        ++ ",";
      "    " ++ DQ ++ "react-scripts" ++ DQ ++ ": " ++ DQ ++ "5.0.1" ++ DQ
        ++ ",";
      "    " ++ DQ ++ "axios" ++ DQ ++ ": " ++ DQ ++ "^1.6.0" ++ DQ;
      "  },";
      "  " ++ DQ ++ "scripts" ++ DQ ++ ": {";
      "    " ++ DQ ++ "start" ++ DQ ++ ": " ++ DQ ++ "react-scripts start"
        ++ DQ ++ ",";
      "    " ++ DQ ++ "build" ++ DQ ++ ": " ++ DQ ++ "react-scripts build"
        ++ DQ ++ ",";
      "    " ++ DQ ++ "test" ++ DQ ++ ": " ++ DQ ++ "react-scripts test"
        ++ DQ ++ ",";
      "    " ++ DQ ++ "eject" ++ DQ ++ ": " ++ DQ ++ "react-scripts eject"
        ++ DQ;
      "  },";
      "  " ++ DQ ++ "eslintConfig" ++ DQ ++ ": {";
      "    " ++ DQ ++ "extends" ++ DQ ++ ": [";
      "      " ++ DQ ++ "react-app" ++ DQ ++ ",";
      "      " ++ DQ ++ "react-app/jest" ++ DQ;
      "    ]";
      "  },";
      "  " ++ DQ ++ "browserslist" ++ DQ ++ ": {";
      "    " ++ DQ ++ "production" ++ DQ ++ ": [";
      "      " ++ DQ ++ ">0.2%" ++ DQ ++ ",";
      "      " ++ DQ ++ "not dead" ++ DQ ++ ",";
      "      " ++ DQ ++ "not op_mini all" ++ DQ;
      "    ],";
      "    " ++ DQ ++ "development" ++ DQ ++ ": [";
      "      " ++ DQ ++ "last 1 chrome version" ++ DQ ++ ",";
      "      " ++ DQ ++ "last 1 firefox version" ++ DQ ++ ",";
      "      " ++ DQ ++ "last 1 safari version" ++ DQ;
      "    ]";
      "  }";
      "}" ].

Definition generateReactAppJs (appName : string) : string :=
  join LF
    [ "import React, { useState, useEffect } from 'react';";
      "import './App.css';";
      EmptyString;
      "function App() {";
      "  const [message, setMessage] = useState('Loading...');";
      EmptyString;
      "  useEffect(() => {";
      "    fetch('/api/hello')";
      "      .then(response => response.json())";
      "      .then(data => setMessage(data.message))";
      "      .catch(error => setMessage('Error connecting to backend'));";
      "  }, []);";
      EmptyString;
      "  return (";
      "    <div className=" ++ DQ ++ "App" ++ DQ ++ ">";
      "      <header className=" ++ DQ ++ "App-header" ++ DQ ++ ">";
      "        <h1>Welcome to " ++ appName ++ "!</h1>";
      "        <p>{message}</p>";
      "        <a";
      "          className=" ++ DQ ++ "App-link" ++ DQ;
      "          href=" ++ DQ ++ "https://reactjs.org" ++ DQ;
      "          target=" ++ DQ ++ "_blank" ++ DQ;
      "          rel=" ++ DQ ++ "noopener noreferrer" ++ DQ;
      "        >";
      "          Learn React";
      "        </a>";
      "      </header>";
      "    </div>";
      "  );";
      "}";
      EmptyString;
      "export default App;" ].

Definition generateReactIndexHtml (appName : string) : string :=
  join LF
    [ "<!DOCTYPE html>";
      "<html lang=" ++ DQ ++ "en" ++ DQ ++ ">";
      "  <head>";
      "    <meta charset=" ++ DQ ++ "utf-8" ++ DQ ++ " />";
      "    <link rel=" ++ DQ ++ "icon" ++ DQ ++ " href=" ++ DQ
        ++ "%PUBLIC_URL%/favicon.ico" ++ DQ ++ " />";
      "    <meta name=" ++ DQ ++ "viewport" ++ DQ ++ " content=" ++ DQ
        ++ "width=device-width, initial-scale=1" ++ DQ ++ " />";
      "    <meta name=" ++ DQ ++ "theme-color" ++ DQ ++ " content=" ++ DQ
        ++ "#000000" ++ DQ ++ " />";
      "    <meta";
      "      name=" ++ DQ ++ "description" ++ DQ;
      "      content=" ++ DQ ++ appName ++ " - Full Stack Application" ++ DQ;
      "    />";
      "    <title>" ++ appName ++ "</title>";
      "  </head>";
      "  <body>";
      "    <noscript>You need to enable JavaScript to run this app.</noscript>";
      "    <div id=" ++ DQ ++ "root" ++ DQ ++ "></div>";
      "  </body>";
      "</html>" ].

Definition generateVuePackageJson (appName : string) : string :=
  join LF
    [ "{";
      "  " ++ DQ ++ "name" ++ DQ ++ ": " ++ DQ ++ appName ++ "-frontend"
        ++ DQ ++ ",";
      "  " ++ DQ ++ "version" ++ DQ ++ ": " ++ DQ ++ "0.1.0" ++ DQ ++ ",";
      "  " ++ DQ ++ "private" ++ DQ ++ ": true,";
      "  " ++ DQ ++ "scripts" ++ DQ ++ ": {";
      "    " ++ DQ ++ "serve" ++ DQ ++ ": " ++ DQ ++ "vue-cli-service serve"
        ++ DQ ++ ",";
      "    " ++ DQ ++ "build" ++ DQ ++ ": " ++ DQ ++ "vue-cli-service build"
        ++ DQ ++ ",";
      "    " ++ DQ ++ "lint" ++ DQ ++ ": " ++ DQ ++ "vue-cli-service lint"
        ++ DQ;
      "  },";
      "  " ++ DQ ++ "dependencies" ++ DQ ++ ": {";
      "    " ++ DQ ++ "vue" ++ DQ ++ ": " ++ DQ ++ "^3.3.0" ++ DQ ++ ",";
      "    " ++ DQ ++ "axios" ++ DQ ++ ": " ++ DQ ++ "^1.6.0" ++ DQ;
      "  },";
      "  " ++ DQ ++ "devDependencies" ++ DQ ++ ": {";
      "    " ++ DQ ++ "@vue/cli-service" ++ DQ ++ ": " ++ DQ ++ "^5.0.0"
        ++ DQ ++ ",";
      "    " ++ DQ ++ "@vue/compiler-sfc" ++ DQ ++ ": " ++ DQ ++ "^3.3.0"
        ++ DQ;
      "  }";
      "}" ].

Definition generateVueAppVue (appName : string) : string :=
  join LF
    [ "<template>";
      "  <div id=" ++ DQ ++ "app" ++ DQ ++ ">";
      "    <h1>Welcome to {{ appName }}!</h1>";
      "    <p>{{ message }}</p>";
      "  </div>";
      "</template>";
      EmptyString;
      "<script>";
      "import axios from 'axios';";
      EmptyString;
      "export default {";
      "  name: 'App',";
      "  data() {";
      "    return {";
      "      appName: '" ++ appName ++ "',";
      "      message: 'Loading...'";
      "    };";
      "  },";
      "  async mounted() {";
      "    try {";
      "      const response = await axios.get('/api/hello');";
      "      this.message = response.data.message;";
      "    } catch (error) {";
      "      this.message = 'Error connecting to backend';";
      "    }";
      "  }";
      "};";
      "</script>";
      EmptyString;
      "<style>";
      "#app {";
      "  font-family: Avenir, Helvetica, Arial, sans-serif;";
      "  text-align: center;";
      "  color: #2c3e50;";
      "  margin-top: 60px;";
      "}";
      "</style>" ].

Definition generateNextPackageJson (appName : string) : string :=
  join LF
    [ "{";
      "  " ++ DQ ++ "name" ++ DQ ++ ": " ++ DQ ++ appName ++ "-frontend"
        ++ DQ ++ ",";
      "  " ++ DQ ++ "version" ++ DQ ++ ": " ++ DQ ++ "0.1.0" ++ DQ ++ ",";
      "  " ++ DQ ++ "private" ++ DQ ++ ": true,";
      "  " ++ DQ ++ "scripts" ++ DQ ++ ": {";
      "    " ++ DQ ++ "dev" ++ DQ ++ ": " ++ DQ ++ "next dev" ++ DQ ++ ",";
      "    " ++ DQ ++ "build" ++ DQ ++ ": " ++ DQ ++ "next build" ++ DQ
        ++ ",";
      "    " ++ DQ ++ "start" ++ DQ ++ ": " ++ DQ ++ "next start" ++ DQ
        ++ ",";
      "    " ++ DQ ++ "lint" ++ DQ ++ ": " ++ DQ ++ "next lint" ++ DQ;
      "  },";
      "  " ++ DQ ++ "dependencies" ++ DQ ++ ": {";
      "    " ++ DQ ++ "next" ++ DQ ++ ": " ++ DQ ++ "14.0.0" ++ DQ ++ ",";
      "    " ++ DQ ++ "react" ++ DQ ++ ": " ++ DQ ++ "^18.2.0" ++ DQ ++ ",";
      "    " ++ DQ ++ "react-dom" ++ DQ ++ ": " ++ DQ ++ "^18.2.0" ++ DQ
        ++ ",";
      "    " ++ DQ ++ "axios" ++ DQ ++ ": " ++ DQ ++ "^1.6.0" ++ DQ;
      "  },";
      "  " ++ DQ ++ "devDependencies" ++ DQ ++ ": {";
      "    " ++ DQ ++ "@types/node" ++ DQ ++ ": " ++ DQ ++ "^20.0.0" ++ DQ
        ++ ",";
      "    " ++ DQ ++ "@types/react" ++ DQ ++ ": " ++ DQ ++ "^18.2.0" ++ DQ
        ++ ",";
      "    " ++ DQ ++ "@types/react-dom" ++ DQ ++ ": " ++ DQ ++ "^18.2.0"
        ++ DQ ++ ",";
      "    " ++ DQ ++ "typescript" ++ DQ ++ ": " ++ DQ ++ "^5.0.0" ++ DQ;
      "  }";
      "}" ].

Definition generateNextPageTsx (appName : string) : string :=
  join LF
    [ "'use client';";
      EmptyString;
      "import { useState, useEffect } from 'react';";
      EmptyString;
      "export default function Home() {";
      "  const [message, setMessage] = useState('Loading...');";
      EmptyString;
      "  useEffect(() => {";
      "    fetch('/api/hello')";
      "      .then(response => response.json())";
      "      .then(data => setMessage(data.message))";
      "      .catch(error => setMessage('Error connecting to backend'));";
      "  }, []);";
      EmptyString;
      "  return (";
      "    <main>";
      "      <h1>Welcome to " ++ appName ++ "!</h1>";
      "      <p>{message}</p>";
      "    </main>";
      "  );";
      "}" ].

Definition generateNodePackageJson (appName : string) : string :=
  join LF
    [ "{";
      "  " ++ DQ ++ "name" ++ DQ ++ ": " ++ DQ ++ appName ++ "-backend"
        ++ DQ ++ ",";
      "  " ++ DQ ++ "version" ++ DQ ++ ": " ++ DQ ++ "1.0.0" ++ DQ ++ ",";
      "  " ++ DQ ++ "description" ++ DQ ++ ": " ++ DQ ++ "Backend API for "
        ++ appName ++ DQ ++ ",";
      "  " ++ DQ ++ "main" ++ DQ ++ ": " ++ DQ ++ "app.js" ++ DQ ++ ",";
      "  " ++ DQ ++ "scripts" ++ DQ ++ ": {";
      "    " ++ DQ ++ "start" ++ DQ ++ ": " ++ DQ ++ "node app.js" ++ DQ
        ++ ",";
      "    " ++ DQ ++ "dev" ++ DQ ++ ": " ++ DQ ++ "nodemon app.js" ++ DQ;
      "  },";
      "  " ++ DQ ++ "dependencies" ++ DQ ++ ": {";
      "    " ++ DQ ++ "express" ++ DQ ++ ": " ++ DQ ++ "^4.18.0" ++ DQ
        ++ ",";
      "    " ++ DQ ++ "cors" ++ DQ ++ ": " ++ DQ ++ "^2.8.5" ++ DQ ++ ",";
      "    " ++ DQ ++ "dotenv" ++ DQ ++ ": " ++ DQ ++ "^16.3.0" ++ DQ;
      "  },";
      "  " ++ DQ ++ "devDependencies" ++ DQ ++ ": {";
      "    " ++ DQ ++ "nodemon" ++ DQ ++ ": " ++ DQ ++ "^3.0.0" ++ DQ;
      "  }";
      "}" ].

Definition generateNodeAppJs (appName : string) (port : Z) : string :=
  join LF
    [ "const express = require('express');";
      "const cors = require('cors');";
      "require('dotenv').config();";
      EmptyString;
      "const app = express();";
      "const PORT = process.env.PORT || " ++ string_of_number port ++ ";";
      EmptyString;
      "app.use(cors());";
      "app.use(express.json());";
      EmptyString;
      "app.get('/api/hello', (req, res) => {";
      "  res.json({ message: 'Hello from " ++ appName ++ " backend!' });";
      "});";
      EmptyString;
      "app.get('/api/health', (req, res) => {";
      "  res.json({ status: 'healthy', timestamp: new Date().toISOString() });";
      "});";
      EmptyString;
      "app.listen(PORT, () => {";
      "  console.log(`" ++ appName
        ++ " backend server running on port ${PORT}`);";
      "});" ].

Definition generatePythonRequirements (appName : string) : string :=
  join LF
    [ "flask==2.3.0";
      "flask-cors==4.0.0";
      "python-dotenv==1.0.0";
      "requests==2.31.0" ].

Definition generatePythonAppPy (appName : string) (port : Z) : string :=
  join LF
    [ "from flask import Flask, jsonify";
      "from flask_cors import CORS";
      "import os";
      "from datetime import datetime";
      EmptyString;
      "app = Flask(__name__)";
      "CORS(app)";
      EmptyString;
      "@app.route('/api/hello')";
      "def hello():";
      "    return jsonify({'message': f'Hello from {appName} backend!'})";
      EmptyString;
      "@app.route('/api/health')";
      "def health():";
      "    return jsonify({";
      "        'status': 'healthy',";
      "        'timestamp': datetime.now().isoformat()";
      "    })";
      EmptyString;
      "if __name__ == '__main__':";
      "    port = int(os.environ.get('PORT', " ++ string_of_number port
        ++ "))";
      "    app.run(host='0.0.0.0', port=port)" ].

Definition generateGoMod (appName : string) : string :=
  join LF
    [ "module " ++ appName ++ "-backend";
      EmptyString;
      "go 1.21";
      EmptyString;
      "require (";
      "    github.com/gin-gonic/gin v1.9.1";
      "    github.com/gin-contrib/cors v1.4.0";
      ")" ].

Definition generateGoMainGo (appName : string) (port : Z) : string :=
  join LF
    [ "package main";
      EmptyString;
      "import (";
      "    " ++ DQ ++ "net/http" ++ DQ;
      "    " ++ DQ ++ "time" ++ DQ;
      "    " ++ DQ ++ "github.com/gin-gonic/gin" ++ DQ;
      "    " ++ DQ ++ "github.com/gin-contrib/cors" ++ DQ;
      ")";
      EmptyString;
      "func main() {";
      "    r := gin.Default()";
      "    ";
      "    r.Use(cors.Default())";
      "    ";
      "    r.GET(" ++ DQ ++ "/api/hello" ++ DQ ++ ", func(c *gin.Context) {";
      "        c.JSON(http.StatusOK, gin.H{";
      "            " ++ DQ ++ "message" ++ DQ ++ ": " ++ DQ ++ "Hello from "
        ++ appName ++ " backend!" ++ DQ ++ ",";
      "        })";
      "    })";
      "    ";
      "    r.GET(" ++ DQ ++ "/api/health" ++ DQ
        ++ ", func(c *gin.Context) {";
      "        c.JSON(http.StatusOK, gin.H{";
      "            " ++ DQ ++ "status" ++ DQ ++ ": " ++ DQ ++ "healthy"
        ++ DQ ++ ",";
      "            " ++ DQ ++ "timestamp" ++ DQ
        ++ ": time.Now().Format(time.RFC3339),";
      "        })";
      "    })";
      "    ";
      "    r.Run(" ++ DQ ++ ":" ++ string_of_number port ++ DQ ++ ")";
      "}" ].

Definition generatePostgresInitSql (appName : string) : string :=
  join LF
    [ "-- Initialize PostgreSQL database for " ++ appName;
      EmptyString;
      "CREATE DATABASE IF NOT EXISTS " ++ appName ++ "_db;";
      "USE " ++ appName ++ "_db;";
      EmptyString;
      "CREATE TABLE IF NOT EXISTS users (";
      "    id SERIAL PRIMARY KEY,";
      "    username VARCHAR(255) NOT NULL UNIQUE,";
      "    email VARCHAR(255) NOT NULL UNIQUE,";
      "    created_at TIMESTAMP DEFAULT CURRENT_TIMESTAMP";
      ");";
      EmptyString;
      "CREATE TABLE IF NOT EXISTS posts (";
      "    id SERIAL PRIMARY KEY,";
      "    user_id INTEGER REFERENCES users(id),";
      "    title VARCHAR(255) NOT NULL,";
      "    content TEXT,";
      "    created_at TIMESTAMP DEFAULT CURRENT_TIMESTAMP";
      ");" ].

Definition generateMysqlInitSql (appName : string) : string :=
  join LF
    [ "-- Initialize MySQL database for " ++ appName;
      EmptyString;
      "CREATE DATABASE IF NOT EXISTS " ++ appName ++ "_db;";
      "USE " ++ appName ++ "_db;";
      EmptyString;
      "CREATE TABLE IF NOT EXISTS users (";
      "    id INT AUTO_INCREMENT PRIMARY KEY,";
      "    username VARCHAR(255) NOT NULL UNIQUE,";
      "    email VARCHAR(255) NOT NULL UNIQUE,";
      "    created_at TIMESTAMP DEFAULT CURRENT_TIMESTAMP";
      ");";
      EmptyString;
      "CREATE TABLE IF NOT EXISTS posts (";
      "    id INT AUTO_INCREMENT PRIMARY KEY,";
      "    user_id INT,";
      "    title VARCHAR(255) NOT NULL,";
      "    content TEXT,";
      "    created_at TIMESTAMP DEFAULT CURRENT_TIMESTAMP,";
      "    FOREIGN KEY (user_id) REFERENCES users(id)";
      ");" ].

Definition generateMongoInitJs (appName : string) : string :=
  join LF
    [ "// Initialize MongoDB database for " ++ appName;
      EmptyString;
      "db = db.getSiblingDB('" ++ appName ++ "_db');";
      EmptyString;
      "// Create collections";
      "db.createCollection('users');";
      "db.createCollection('posts');";
      EmptyString;
      "// Create indexes";
      "db.users.createIndex({ " ++ DQ ++ "username" ++ DQ
        ++ ": 1 }, { unique: true });";
      "db.users.createIndex({ " ++ DQ ++ "email" ++ DQ
        ++ ": 1 }, { unique: true });";
      EmptyString;
      "// Insert sample data";
      "db.users.insertOne({";
      "    username: " ++ DQ ++ "admin" ++ DQ ++ ",";
      "    email: " ++ DQ ++ "admin@" ++ appName ++ ".com" ++ DQ ++ ",";
      "    created_at: new Date()";
      "});";
      EmptyString;
      "db.posts.insertOne({";
      "    user_id: ObjectId(),";
      "    title: " ++ DQ ++ "Welcome to " ++ appName ++ DQ ++ ",";
      "    content: " ++ DQ ++ "This is your first post!" ++ DQ ++ ",";
      "    created_at: new Date()";
      "});" ].

Definition generateOpenAIConfig (appName : string) (apiKey : string) : string :=
  join LF
    [ "// OpenAI configuration for " ++ appName;
      EmptyString;
      "const OPENAI_CONFIG = {";
      "    apiKey: '" ++ apiKey ++ "',";
      "    model: 'gpt-3.5-turbo',";
      "    maxTokens: 1000,";
      "    temperature: 0.7";
      "};";
      EmptyString;
      "module.exports = OPENAI_CONFIG;" ].

End ProjectFiles.

Module FullStack.
Import ProjectFiles.

Record Frontend := mkFrontend {
  frontend_type : string;
  frontend_port : option Z
}.

Record Backend := mkBackend {
  backend_type : string;
  backend_port : option Z;
  backend_database : option bool
}.

Record Database := mkDatabase {
  database_type : string;
  database_port : option Z
}.

Record OpenAI := mkOpenAI {
  enabled : bool;
  apiKey : option string
}.

(** The parameters of [generateFullStack].  The declared type makes
    [frontend] and [backend] required; the code guards each with an [if],
    so both are optional here. *)
Record LocalFullStackParams := mkFullStackParams {
  appName : string;
  frontend : option Frontend;
  backend : option Backend;
  database : option Database;
  openai : option OpenAI
}.

Record FileEntry := mkFile {
  name : string;
  path : string;
  content : string
}.

Record FileGenerationResult := mkGenerated {
  files : list FileEntry;
  instructions : string
}.

Definition generateFrontendFiles (appName : string) (frontend : Frontend)
  : list FileEntry :=
  let t := frontend_type frontend in
  if String.eqb t "react" then
    [ mkFile "package.json" "frontend/package.json"
        (generateReactPackageJson appName);
      mkFile "App.js" "frontend/src/App.js" (generateReactAppJs appName);
      mkFile "index.html" "frontend/public/index.html"
        (generateReactIndexHtml appName) ]
  else if String.eqb t "vue" then
    [ mkFile "package.json" "frontend/package.json"
        (generateVuePackageJson appName);
      mkFile "App.vue" "frontend/src/App.vue" (generateVueAppVue appName) ]
  else if String.eqb t "next" then
    [ mkFile "package.json" "frontend/package.json"
        (generateNextPackageJson appName);
      mkFile "page.tsx" "frontend/app/page.tsx" (generateNextPageTsx appName) ]
  else [].

Definition generateBackendFiles (appName : string) (backend : Backend)
  : list FileEntry :=
  let t := backend_type backend in
  let port := number_or (backend_port backend) 8000 in
  if String.eqb t "node" then
    [ mkFile "package.json" "backend/package.json"
        (generateNodePackageJson appName);
      mkFile "app.js" "backend/app.js" (generateNodeAppJs appName port) ]
  else if String.eqb t "python" then
    [ mkFile "requirements.txt" "backend/requirements.txt"
        (generatePythonRequirements appName);
      mkFile "app.py" "backend/app.py" (generatePythonAppPy appName port) ]
  else if String.eqb t "go" then
    [ mkFile "go.mod" "backend/go.mod" (generateGoMod appName);
      mkFile "main.go" "backend/main.go" (generateGoMainGo appName port) ]
  else [].

Definition generateDatabaseFiles (appName : string) (database : Database)
  : list FileEntry :=
  let t := database_type database in
  if String.eqb t "postgres" then
    [ mkFile "database.sql" "database/init.sql"
        (generatePostgresInitSql appName) ]
  else if String.eqb t "mysql" then
    [ mkFile "database.sql" "database/init.sql" (generateMysqlInitSql appName) ]
  else if String.eqb t "mongodb" then
    [ mkFile "database.js" "database/init.js" (generateMongoInitJs appName) ]
  else [].

Definition generateOpenAIFiles (appName : string) (openai : OpenAI)
  : list FileEntry :=
  [ mkFile "openai-config.js" "config/openai.js"
      (generateOpenAIConfig appName (or_else (apiKey openai) "your-api-key-here")) ].

Definition frontend_dockerfile (appName : string) (f : Frontend)
  : outcome string :=
  Dockerfiles.generateDockerfile
    (Dockerfiles.mkDockerfileParams (appName ++ "-frontend") (frontend_type f)
       None (Some (number_or (frontend_port f) 3000)) None None None None).

Definition backend_dockerfile (appName : string) (b : Backend)
  : outcome string :=
  Dockerfiles.generateDockerfile
    (Dockerfiles.mkDockerfileParams (appName ++ "-backend") (backend_type b)
       None (Some (number_or (backend_port b) 8000)) None None None None).

Definition generateDockerfilesForFullStack (appName : string)
  (frontend : option Frontend) (backend : option Backend)
  : outcome (list FileEntry) :=
  and_then_do
    (match frontend with
     | Some f =>
         and_then_do (frontend_dockerfile appName f) (fun content =>
         Returned [mkFile "Dockerfile.frontend" "frontend/Dockerfile" content])
     | None => Returned []
     end)
    (fun files =>
       match backend with
       | Some b =>
           and_then_do (backend_dockerfile appName b) (fun content =>
           Returned
             (files ++ [mkFile "Dockerfile.backend" "backend/Dockerfile" content])%list)
       | None => Returned files
       end).

Definition frontend_pod (appName : string) (f : Frontend) : PodConfig :=
  mkPod (appName ++ "-frontend") ("ttl.sh/" ++ appName ++ "-frontend:1h")
        (Some [number_or (frontend_port f) 3000]) None None.

Definition backend_pod (appName : string) (b : Backend) : PodConfig :=
  mkPod (appName ++ "-backend") ("ttl.sh/" ++ appName ++ "-backend:1h")
        (Some [number_or (backend_port b) 8000]) None None.

(** What an [if (x) { ... push ... }] contributes. *)
Definition when_present {A B : Type} (o : option A) (f : A -> list B) : list B :=
  match o with
  | Some x => f x
  | None => []
  end.

(** The pods of the generated manifest. *)
Definition full_stack_pods (params : LocalFullStackParams) : list PodConfig :=
  when_present (frontend params) (fun f => [frontend_pod (appName params) f])
  ++ when_present (backend params) (fun b => [backend_pod (appName params) b]).

(** The files pushed before the Dockerfiles. *)
Definition source_files (params : LocalFullStackParams) : list FileEntry :=
  when_present (frontend params) (generateFrontendFiles (appName params))
  ++ when_present (backend params) (generateBackendFiles (appName params))
  ++ when_present (database params) (generateDatabaseFiles (appName params))
  ++ when_present (openai params) (generateOpenAIFiles (appName params)).

Definition frontend_instruction (f : Frontend) : string :=
  "Frontend (" ++ frontend_type f ++ ") files generated in /frontend directory".

Definition backend_instruction (b : Backend) : string :=
  "Backend (" ++ backend_type b ++ ") files generated in /backend directory".

Definition database_instruction (d : Database) : string :=
  "Database (" ++ database_type d ++ ") configuration generated".

(** The instruction lines pushed along with them. *)
Definition source_instructions (params : LocalFullStackParams) : list string :=
  when_present (frontend params) (fun f => [frontend_instruction f])
  ++ when_present (backend params) (fun b => [backend_instruction b])
  ++ when_present (database params) (fun d => [database_instruction d])
  ++ when_present (openai params) (fun _ => ["OpenAI integration configured"]).

(** The entry [generateFullStack] pushes last. *)
Definition manifest_file (params : LocalFullStackParams) : FileEntry :=
  mkFile "nexlayer.yaml" "nexlayer.yaml"
    (FileGenerator.generateNexlayerYaml
       (mkParams (appName params) (full_stack_pods params) None)).

(** The frontend types [generateFrontendFiles] has a case for. *)
Definition frontend_source_types : list string := ["react"; "vue"; "next"].

Definition generateFullStack (params : LocalFullStackParams)
  : outcome FileGenerationResult :=
  let files := source_files params in
  let instructions := source_instructions params in
  and_then_do
    (generateDockerfilesForFullStack (appName params) (frontend params)
       (backend params))
    (fun dockerfiles =>
       let files := (files ++ dockerfiles)%list in
       let yaml :=
         FileGenerator.generateNexlayerYaml
           (mkParams (appName params) (full_stack_pods params) None) in
       let files := (files ++ [mkFile "nexlayer.yaml" "nexlayer.yaml" yaml])%list in
       let instructions :=
         (instructions ++ ["nexlayer.yaml generated for deployment"])%list in
       Returned (mkGenerated files (join LF instructions))).

End FullStack.

(* ================================================================= *)
(** ** Concrete inputs *)

Definition web_pod : PodConfig :=
  mkPod "web" "nginx:1.25" (Some [80%Z]) (Some [("MODE", "prod")]) None.

Definition blog : NexlayerYaml := mkYaml (mkApplication "blog" [web_pod]).

Definition blog_params : GenerateNexlayerYamlParams :=
  mkParams "blog" [web_pod] None.

(** A pod whose image carries a quote and a line feed, and the two pods
    its rendering is mistaken for. *)
Definition injected_pod : PodConfig :=
  mkPod "a"
        ("i" ++ DQ ++ LF ++ "    - name: " ++ DQ ++ "b" ++ DQ ++ LF
             ++ "      image: " ++ DQ ++ "j")
        None None None.

Definition one_pod_app : NexlayerYaml :=
  mkYaml (mkApplication "x" [injected_pod]).

Definition two_pod_app : NexlayerYaml :=
  mkYaml (mkApplication "x"
            [mkPod "a" "i" None None None; mkPod "b" "j" None None None]).

(** Two pods that differ in where the var name ends: a colon in the name
    makes the var line ambiguous. *)
Definition colon_name_pod : PodConfig :=
  mkPod "a" "i" None (Some [("K: " ++ DQ ++ "x", "y")]) None.

Definition colon_value_pod : PodConfig :=
  mkPod "a" "i" None (Some [("K", "x: " ++ DQ ++ "y")]) None.

(** A pod without collections whose image, through a quote and line
    feeds, brings a [servicePorts] key line into the text. *)
Definition injected_key_pod : PodConfig :=
  mkPod "a"
        ("i" ++ DQ ++ LF ++ "      servicePorts:" ++ LF ++ "      x: " ++ DQ)
        None None None.

Definition out_of_range_pod : PodConfig :=
  mkPod "a" "img" (Some [0%Z; 65536%Z; 1%Z; 65535%Z]) None None.


Definition secret_pod : PodConfig :=
  mkPod "db" "postgres:14" (Some [5432%Z]) None
        (Some [mkSecret "creds" "s3cr3t" "/var/secrets" "creds.txt"]).

Definition secret_params : GenerateNexlayerYamlParams :=
  mkParams "shop" [secret_pod] None.

(** A manifest with two independent problems: a duplicated var name and a
    secret with an empty mount path. *)
Definition two_problem_pod : PodConfig :=
  mkPod "a" "img" None (Some [("K", "1"); ("K", "2")])
        (Some [mkSecret "s" "d" EmptyString "f"]).

Definition two_problem_manifest : string :=
  NexlayerApiClient.generateYaml "x" [two_problem_pod].

Definition accepting_remote (_ : string) : HttpReply :=
  Response (mkResult true None None).

Definition rejecting_remote (_ : string) : HttpReply :=
  Response (mkResult false (Some ["pod name missing"; "image missing"]) None).

(* ================================================================= *)
(** * Properties *)

(** ** Text algebra *)

Lemma append_empty_r (s : string) : s ++ EmptyString = s.
Proof. induction s as [|c s IH]; simpl; [reflexivity | now rewrite IH]. Qed.

Lemma append_assoc (s t u : string) : (s ++ t) ++ u = s ++ (t ++ u).
Proof. induction s as [|c s IH]; simpl; [reflexivity | now rewrite IH]. Qed.

Lemma concat_empty_cons (x : string) (l : list string) :
  String.concat EmptyString (x :: l) = x ++ String.concat EmptyString l.
Proof.
  destruct l as [|y l]; simpl; [now rewrite append_empty_r | reflexivity].
Qed.

Lemma concat_empty_app (l1 l2 : list string) :
  String.concat EmptyString (l1 ++ l2)%list
  = String.concat EmptyString l1 ++ String.concat EmptyString l2.
Proof.
  induction l1 as [|x l1 IH]; [reflexivity|].
  change ((x :: l1) ++ l2)%list with (x :: (l1 ++ l2))%list.
  now rewrite !concat_empty_cons, IH, append_assoc.
Qed.

Lemma unlines_nil : unlines [] = EmptyString.
Proof. reflexivity. Qed.

Lemma unlines_cons (l : string) (ls : list string) :
  unlines (l :: ls) = l ++ LF ++ unlines ls.
Proof.
  unfold unlines. cbn [map]. now rewrite concat_empty_cons, append_assoc.
Qed.

Lemma unlines_app (l1 l2 : list string) :
  unlines (l1 ++ l2)%list = unlines l1 ++ unlines l2.
Proof.
  unfold unlines. now rewrite map_app, concat_empty_app.
Qed.

Lemma separated_cons (l : string) (ls : list string) :
  separated (l :: ls) = LF ++ l ++ separated ls.
Proof.
  unfold separated. cbn [map]. now rewrite concat_empty_cons, append_assoc.
Qed.

Lemma separated_app (l1 l2 : list string) :
  separated (l1 ++ l2)%list = separated l1 ++ separated l2.
Proof.
  unfold separated. now rewrite map_app, concat_empty_app.
Qed.

Lemma join_cons (sep l : string) (ls : list string) :
  join sep (l :: ls)
  = l ++ String.concat EmptyString (map (fun x => sep ++ x) ls).
Proof.
  revert l. induction ls as [|y ls IH]; intros l.
  - simpl. now rewrite append_empty_r.
  - change (join sep (l :: y :: ls)) with (l ++ sep ++ join sep (y :: ls)).
    rewrite IH. cbn [map]. now rewrite concat_empty_cons, !append_assoc.
Qed.

Lemma join_separated (l : string) (ls : list string) :
  join LF (l :: ls) = l ++ separated ls.
Proof. apply join_cons. Qed.

(** ** What a loop of appends writes *)

Lemma forEach_nil {A : Type} (body : A -> string -> string) (acc : string) :
  forEach [] body acc = acc.
Proof. reflexivity. Qed.

Lemma forEach_cons {A : Type} (body : A -> string -> string) x l acc :
  forEach (x :: l) body acc = forEach l body (body x acc).
Proof. reflexivity. Qed.

Lemma forEach_unlines {A : Type} (body : A -> string -> string)
  (entry : A -> list string) :
  (forall x acc, body x acc = acc ++ unlines (entry x)) ->
  forall l acc, forEach l body acc = acc ++ unlines (flat_map entry l).
Proof.
  intros Hbody l. induction l as [|x l IH]; intros acc.
  - simpl. now rewrite unlines_nil, append_empty_r.
  - rewrite forEach_cons, IH, Hbody. simpl flat_map.
    now rewrite unlines_app, append_assoc.
Qed.

Lemma forEach_separated {A : Type} (body : A -> string -> string)
  (entry : A -> list string) :
  (forall x acc, body x acc = acc ++ separated (entry x)) ->
  forall l acc, forEach l body acc = acc ++ separated (flat_map entry l).
Proof.
  intros Hbody l. induction l as [|x l IH]; intros acc.
  - simpl. now rewrite append_empty_r.
  - rewrite forEach_cons, IH, Hbody. simpl flat_map.
    now rewrite separated_app, append_assoc.
Qed.

Lemma section_guard {A : Type} (header : string) (entry : A -> list string)
  (o : option (list A)) :
  section header entry o
  = if present_nonempty o then header :: flat_map entry (elements o) else [].
Proof. destruct o as [[|x l]|]; reflexivity. Qed.

Lemma section_absent {A : Type} (header : string) (entry : A -> list string)
  (o : option (list A)) :
  present_nonempty o = false -> section header entry o = [].
Proof. intros H. now rewrite section_guard, H. Qed.

Lemma section_present {A : Type} (header : string) (entry : A -> list string)
  (o : option (list A)) :
  present_nonempty o = true ->
  section header entry o = header :: flat_map entry (elements o).
Proof. intros H. now rewrite section_guard, H. Qed.

(** ** The loops of [yamlToString] write the layout *)

Module ApiRefinement.
Import NexlayerApiClient Layout.

Lemma port_step_line port acc :
  port_step port acc = acc ++ unlines [port_line port].
Proof.
  unfold port_step, port_line. rewrite unlines_cons, unlines_nil.
  now rewrite !append_assoc, ?append_empty_r.
Qed.

Lemma var_step_line kv acc :
  var_step kv acc = acc ++ unlines [var_line kv].
Proof.
  destruct kv as [key value].
  unfold var_step, var_line, quoted. rewrite unlines_cons, unlines_nil.
  simpl fst; simpl snd.
  now rewrite !append_assoc, ?append_empty_r.
Qed.

Lemma secret_step_lines secret acc :
  secret_step secret acc = acc ++ unlines (secret_lines secret).
Proof.
  unfold secret_step, secret_lines, quoted.
  rewrite !unlines_cons, unlines_nil.
  now rewrite !append_assoc, ?append_empty_r.
Qed.

Lemma guarded_loop {A : Type} (body : A -> string -> string)
  (entry : A -> list string) (header : string) (o : option (list A)) acc :
  (forall x acc, body x acc = acc ++ unlines (entry x)) ->
  (if present_nonempty o
   then forEach (elements o) body (acc ++ (header ++ LF))
   else acc)
  = acc ++ unlines (section header entry o).
Proof.
  intros Hbody. rewrite section_guard.
  destruct (present_nonempty o).
  - rewrite (forEach_unlines body entry Hbody), unlines_cons.
    now rewrite !append_assoc.
  - now rewrite unlines_nil, append_empty_r.
Qed.

Lemma pod_step_lines pod acc :
  pod_step pod acc = acc ++ unlines (pod_lines pod).
Proof.
  unfold pod_step, pod_lines.
  rewrite (guarded_loop secret_step secret_lines) by apply secret_step_lines.
  rewrite (guarded_loop var_step (fun kv => [var_line kv])) by apply var_step_line.
  rewrite (guarded_loop port_step (fun p => [port_line p])) by apply port_step_line.
  fold (secrets_section pod) (vars_section pod) (ports_section pod).
  rewrite !unlines_app, !unlines_cons. unfold name_line, image_line, quoted.
  now rewrite !append_assoc.
Qed.

Lemma yamlToString_lines yaml :
  yamlToString yaml = unlines (yaml_lines yaml).
Proof.
  unfold yamlToString, yaml_lines.
  rewrite (forEach_unlines pod_step pod_lines pod_step_lines).
  rewrite !unlines_cons. unfold quoted.
  now rewrite !append_assoc.
Qed.

End ApiRefinement.

(** ** The loops of [generateNexlayerYaml] write the file layout *)

Module FileRefinement.
Import FileGenerator FileLayout.

Lemma file_port_step_line port acc :
  port_step port acc = acc ++ separated [port_line port].
Proof.
  unfold port_step, port_line. rewrite separated_cons.
  now rewrite ?append_assoc, ?append_empty_r.
Qed.

Lemma file_var_step_line kv acc :
  var_step kv acc = acc ++ separated [var_line kv].
Proof.
  destruct kv as [key value]. unfold var_step, var_line.
  rewrite separated_cons. simpl fst; simpl snd.
  now rewrite ?append_assoc, ?append_empty_r.
Qed.

Lemma file_guarded_loop {A : Type} (body : A -> string -> string)
  (entry : A -> list string) (header : string) (o : option (list A)) acc :
  (forall x acc, body x acc = acc ++ separated (entry x)) ->
  (if present_nonempty o
   then forEach (elements o) body (acc ++ (LF ++ header))
   else acc)
  = acc ++ separated (section header entry o).
Proof.
  intros Hbody. rewrite section_guard.
  destruct (present_nonempty o).
  - rewrite (forEach_separated body entry Hbody), separated_cons.
    now rewrite ?append_assoc.
  - simpl. now rewrite append_empty_r.
Qed.

Lemma file_pod_step_lines pod acc :
  pod_step pod acc = acc ++ separated (pod_lines pod).
Proof.
  unfold pod_step, pod_lines.
  rewrite (file_guarded_loop var_step (fun kv => [var_line kv]))
    by apply file_var_step_line.
  rewrite (file_guarded_loop port_step (fun p => [port_line p]))
    by apply file_port_step_line.
  fold (vars_section pod) (ports_section pod).
  rewrite separated_app, !separated_cons. unfold name_line, image_line.
  now rewrite ?append_assoc.
Qed.

Lemma generateNexlayerYaml_lines params :
  generateNexlayerYaml params = join LF (file_lines params).
Proof.
  unfold generateNexlayerYaml, file_lines, header_lines.
  rewrite (forEach_separated pod_step pod_lines file_pod_step_lines).
  simpl app. rewrite join_separated, !separated_cons.
  unfold description_line. now rewrite ?append_assoc.
Qed.

End FileRefinement.

(** ** Lines of a text *)

Lemma single_line_cons c s :
  single_line (String c s) = negb (Ascii.eqb c lf_char) && single_line s.
Proof. unfold single_line. simpl. now rewrite negb_orb. Qed.

Lemma has_char_app c s t :
  has_char c (s ++ t) = has_char c s || has_char c t.
Proof.
  induction s as [|a s IH]; simpl; [reflexivity|].
  now rewrite IH, orb_assoc.
Qed.

Lemma single_line_app s t :
  single_line (s ++ t) = single_line s && single_line t.
Proof. unfold single_line. now rewrite has_char_app, negb_orb. Qed.

Lemma split_lines_line l t :
  single_line l = true -> split_lines (l ++ LF ++ t) = l :: split_lines t.
Proof.
  induction l as [|c l IH]; intros Hl.
  - reflexivity.
  - rewrite single_line_cons in Hl. apply andb_prop in Hl as [Hc Hl].
    apply negb_true_iff in Hc.
    change (String c l ++ LF ++ t) with (String c (l ++ LF ++ t)).
    cbn [split_lines]. now rewrite Hc, IH.
Qed.

Lemma split_lines_unlines ls :
  forallb single_line ls = true ->
  split_lines (unlines ls) = (ls ++ [EmptyString])%list.
Proof.
  induction ls as [|l ls IH]; intros Hls.
  - reflexivity.
  - cbn [forallb] in Hls. apply andb_prop in Hls as [Hl Hls].
    rewrite unlines_cons, split_lines_line by assumption.
    now rewrite IH.
Qed.

Lemma digits_single_line d :
  has_char lf_char (NilEmpty.string_of_uint d) = false.
Proof. induction d; simpl; auto. Qed.

Lemma number_single_line n : single_line (string_of_number n) = true.
Proof.
  unfold single_line, string_of_number. apply negb_true_iff.
  destruct (Z.to_int n) as [d|d]; simpl;
    destruct d; simpl; auto using digits_single_line.
Qed.

Lemma quoted_single_line s : single_line (quoted s) = single_line s.
Proof.
  unfold quoted. rewrite !single_line_app.
  change (single_line DQ) with true. now rewrite andb_true_r.
Qed.

Lemma forallb_app_true {A : Type} (f : A -> bool) l1 l2 :
  forallb f l1 = true -> forallb f l2 = true -> forallb f (l1 ++ l2)%list = true.
Proof. intros H1 H2. now rewrite forallb_app, H1, H2. Qed.

Lemma forallb_flat_map {A B : Type} (f : B -> bool) (g : A -> bool)
  (entry : A -> list B) l :
  (forall x, g x = true -> forallb f (entry x) = true) ->
  forallb g l = true -> forallb f (flat_map entry l) = true.
Proof.
  intros Hg. induction l as [|x l IH]; intros Hl; [reflexivity|].
  cbn [forallb] in Hl. apply andb_prop in Hl as [Hx Hl].
  simpl flat_map. apply forallb_app_true; auto.
Qed.

Lemma section_single_line {A : Type} header (entry : A -> list string)
  (g : A -> bool) o :
  single_line header = true ->
  (forall x, g x = true -> forallb single_line (entry x) = true) ->
  forallb g (elements o) = true ->
  forallb single_line (section header entry o) = true.
Proof.
  intros Hh He Ho. rewrite section_guard.
  destruct (present_nonempty o); [|reflexivity].
  cbn [forallb]. rewrite Hh. simpl andb.
  now apply (forallb_flat_map single_line g).
Qed.

Lemma forallb_trivial {A : Type} (l : list A) :
  forallb (fun _ => true) l = true.
Proof. induction l; simpl; auto. Qed.

Lemma pod_lines_single_line pod :
  single_line_pod pod = true ->
  forallb single_line (Layout.pod_lines pod) = true.
Proof.
  unfold single_line_pod. intros H.
  apply andb_prop in H as [H Hsecrets]. apply andb_prop in H as [H Hvars].
  apply andb_prop in H as [Hname Himage].
  unfold Layout.pod_lines. apply forallb_app_true; [|apply forallb_app_true].
  - cbn [forallb]. unfold Layout.name_line, Layout.image_line.
    rewrite !single_line_app, !quoted_single_line, Hname, Himage. simpl.
    apply (section_single_line _ _ (fun _ => true)); auto using forallb_trivial.
    intros x _. cbn [forallb]. unfold Layout.port_line.
    now rewrite single_line_app, number_single_line.
  - apply (section_single_line _ _ single_line_var); auto.
    intros [k v] Hkv. unfold single_line_var, plain_key in Hkv. simpl in Hkv.
    apply andb_prop in Hkv as [Hk Hv]. apply andb_prop in Hk as [Hk _].
    cbn [forallb]. unfold Layout.var_line. simpl fst; simpl snd.
    rewrite !single_line_app, quoted_single_line, Hk, Hv. reflexivity.
  - apply (section_single_line _ _ single_line_secret); auto.
    intros x Hx. unfold single_line_secret in Hx.
    apply andb_prop in Hx as [Hx Hf]. apply andb_prop in Hx as [Hx Hm].
    apply andb_prop in Hx as [Hn Hd].
    unfold Layout.secret_lines. cbn [forallb].
    rewrite !single_line_app, !quoted_single_line, Hn, Hd, Hm, Hf. reflexivity.
Qed.

Lemma yaml_lines_single_line yaml :
  single_line_yaml yaml = true ->
  forallb single_line (Layout.yaml_lines yaml) = true.
Proof.
  unfold single_line_yaml. intros H. apply andb_prop in H as [Hname Hpods].
  unfold Layout.yaml_lines. cbn [forallb].
  rewrite single_line_app, quoted_single_line, Hname. simpl.
  apply (forallb_flat_map single_line single_line_pod); auto.
  apply pod_lines_single_line.
Qed.

(** ** The parser reads back what the layout writes *)

Module ParserFacts.
Import Parser Layout.

Lemma strip_prefix_app p s : strip_prefix p (p ++ s) = Some s.
Proof.
  induction p as [|a p IH]; simpl; [reflexivity|].
  now rewrite Ascii.eqb_refl.
Qed.

Lemma app_quote_cons s : exists c t, s ++ DQ = String c t.
Proof.
  destruct s as [|c s];
    [exists dq_char, EmptyString | exists c, (s ++ DQ)]; reflexivity.
Qed.

Lemma strip_last_quote_app s : strip_last_quote (s ++ DQ) = Some s.
Proof.
  induction s as [|c s IH]; [reflexivity|].
  change (String c s ++ DQ) with (String c (s ++ DQ)).
  cbn [strip_last_quote]. destruct (app_quote_cons s) as (a & t & E).
  rewrite E in *. now rewrite IH.
Qed.

Lemma unquote_quoted s : unquote (quoted s) = Some s.
Proof.
  unfold quoted. change (DQ ++ s ++ DQ) with (String dq_char (s ++ DQ)).
  cbn [unquote]. rewrite Ascii.eqb_refl. apply strip_last_quote_app.
Qed.

Lemma scalar_after_line key s : scalar_after key (key ++ quoted s) = Some s.
Proof.
  unfold scalar_after. rewrite strip_prefix_app. apply unquote_quoted.
Qed.

Lemma split_colon_app k r :
  has_char colon_char k = false ->
  split_colon (k ++ String colon_char r) = Some (k, r).
Proof.
  induction k as [|c k IH]; intros Hk.
  - reflexivity.
  - simpl in Hk. apply orb_false_iff in Hk as [Hc Hk].
    change (String c k ++ String colon_char r)
      with (String c (k ++ String colon_char r)).
    cbn [split_colon]. now rewrite Hc, IH.
Qed.

Lemma parse_var_line_line kv :
  plain_key (fst kv) = true -> parse_var_line (var_line kv) = Some kv.
Proof.
  destruct kv as [k v]. unfold plain_key. simpl fst. intros Hk.
  apply andb_prop in Hk as [_ Hk]. apply negb_true_iff in Hk.
  unfold parse_var_line, var_line. simpl fst; simpl snd.
  rewrite strip_prefix_app. cbn [and_then].
  change (k ++ ": " ++ quoted v) with (k ++ String colon_char (" " ++ quoted v)).
  rewrite split_colon_app by assumption. cbn [and_then fst snd].
  rewrite strip_prefix_app. cbn [and_then].
  rewrite unquote_quoted. reflexivity.
Qed.

Lemma number_of_string_of_number n :
  number_of_string (string_of_number n) = Some n.
Proof.
  unfold number_of_string, string_of_number.
  rewrite NilZero.isi.
  - simpl. now rewrite DecimalZ.of_to.
  - destruct n; simpl; try discriminate.
    intros [= E]. now apply DecimalPos.Unsigned.to_uint_nonnil in E.
  - destruct n; simpl; try discriminate.
    intros [= E]. now apply DecimalPos.Unsigned.to_uint_nonnil in E.
Qed.

Lemma parse_port_line_line port : parse_port_line (port_line port) = Some port.
Proof.
  unfold parse_port_line, port_line. rewrite strip_prefix_app.
  apply number_of_string_of_number.
Qed.

Lemma strip_prefix_append p q s :
  strip_prefix (p ++ q) s
  = match strip_prefix p s with
    | Some r => strip_prefix q r
    | None => None
    end.
Proof.
  revert s. induction p as [|a p IH]; intros s; [reflexivity|].
  cbn [append strip_prefix]. destruct s as [|b s]; [reflexivity|].
  destruct (Ascii.eqb a b); [apply IH | reflexivity].
Qed.

Lemma shallow_deeper q l : shallow l -> strip_prefix (eight_spaces ++ q) l = None.
Proof. unfold shallow. intros H. now rewrite strip_prefix_append, H. Qed.

Lemma shallow_no_port l : shallow l -> parse_port_line l = None.
Proof.
  intros H. unfold parse_port_line.
  change "        - " with (eight_spaces ++ "- ").
  now rewrite shallow_deeper.
Qed.

Lemma shallow_no_var l : shallow l -> parse_var_line l = None.
Proof. unfold shallow, parse_var_line. now intros ->. Qed.

Lemma shallow_no_secret l :
  shallow l -> scalar_after "        - name: " l = None.
Proof.
  intros H. unfold scalar_after.
  change "        - name: " with (eight_spaces ++ "- name: ").
  now rewrite shallow_deeper.
Qed.


Lemma parse_entries_lines {A : Type} (parse_line : string -> option A)
  (line : A -> string) xs rest :
  Forall (fun x => parse_line (line x) = Some x) xs ->
  head_ok (fun l => parse_line l = None) rest ->
  parse_entries parse_line (flat_map (fun x => [line x]) xs ++ rest)%list
  = (xs, rest).
Proof.
  intros Hxs Hrest. induction Hxs as [|x xs Hx _ IH].
  - simpl. destruct rest as [|l rest]; [reflexivity|].
    simpl in Hrest. cbn [parse_entries]. now rewrite Hrest.
  - simpl. rewrite Hx, IH. reflexivity.
Qed.

Lemma parse_secrets_lines ss rest :
  head_ok shallow rest ->
  parse_secrets (flat_map secret_lines ss ++ rest)%list = (ss, rest).
Proof.
  intros Hrest. induction ss as [|x ss IH].
  - simpl. destruct rest as [|l1 [|l2 [|l3 [|l4 rest]]]]; try reflexivity.
    simpl in Hrest. cbn [parse_secrets].
    now rewrite (shallow_no_secret l1 Hrest).
  - destruct x as [n d m f]. cbn [flat_map secret_lines app].
    cbn [secret_name data mountPath fileName].
    cbn [parse_secrets]. rewrite !scalar_after_line. now rewrite IH.
Qed.

Lemma head_ok_weaken (P Q : string -> Prop) ls :
  (forall l, P l -> Q l) -> head_ok P ls -> head_ok Q ls.
Proof. destruct ls; simpl; auto. Qed.

Lemma head_ok_section {A : Type} (P : string -> Prop) header
  (entry : A -> list string) o rest :
  P header -> head_ok P rest -> head_ok P (section header entry o ++ rest)%list.
Proof. intros Hh Hrest. destruct o as [[|x l]|]; simpl; auto. Qed.

Lemma parse_section_lines {A : Type} header
  (entries : list string -> list A * list string)
  (entry : A -> list string) o rest :
  entries (flat_map entry (elements o) ++ rest)%list = (elements o, rest) ->
  head_ok (fun l => String.eqb l header = false) rest ->
  parse_section header entries (section header entry o ++ rest)%list
  = (canonical_field o, rest).
Proof.
  intros Hentries Hrest.
  assert (Habsent : parse_section header entries rest = (None, rest)).
  { destruct rest as [|l rest]; [reflexivity|].
    simpl in Hrest. cbn [parse_section]. now rewrite Hrest. }
  destruct o as [[|x l]|]; try exact Habsent.
  cbn [section app parse_section]. rewrite String.eqb_refl.
  cbn [elements] in Hentries. now rewrite Hentries.
Qed.

Lemma below_empty header : nonempty header = true -> below header EmptyString.
Proof. destruct header; [discriminate|]. now split. Qed.

Lemma below_name_line header pod :
  starts_with six_spaces header = true -> below header (name_line pod).
Proof.
  intros H. split; [reflexivity|].
  destruct (String.eqb_spec (name_line pod) header) as [E|]; [|reflexivity].
  rewrite <- E in H. discriminate H.
Qed.

Lemma pods_tail_below header ps :
  starts_with six_spaces header = true ->
  head_ok (below header) (pods_tail ps).
Proof.
  intros H. destruct ps as [|p ps]; simpl.
  - apply below_empty. now destruct header.
  - now apply below_name_line.
Qed.

Lemma pods_tail_length ps : length ps < length (pods_tail ps).
Proof.
  unfold pods_tail. induction ps as [|p ps IH].
  - simpl. lia.
  - cbn [flat_map]. rewrite <- app_assoc, length_app.
    unfold pod_lines at 1. simpl length. lia.
Qed.

Lemma after_vars (P : string -> Prop) pod rest :
  P secrets_header -> head_ok P rest ->
  head_ok P (secrets_section pod ++ rest)%list.
Proof. intros. now apply head_ok_section. Qed.

Lemma after_ports (P : string -> Prop) pod rest :
  P vars_header -> P secrets_header -> head_ok P rest ->
  head_ok P (vars_section pod ++ secrets_section pod ++ rest)%list.
Proof. intros. apply head_ok_section; [assumption|]. now apply after_vars. Qed.

Lemma below_shallow header ls :
  head_ok (below header) ls -> head_ok shallow ls.
Proof. apply head_ok_weaken. now intros l []. Qed.

Lemma below_differs header ls :
  head_ok (below header) ls ->
  head_ok (fun l => String.eqb l header = false) ls.
Proof. apply head_ok_weaken. now intros l []. Qed.

Lemma parse_pod_block fuel pod rest :
  Forall (fun kv => plain_key (fst kv) = true) (elements (vars pod)) ->
  head_ok (below ports_header) rest ->
  head_ok (below vars_header) rest ->
  head_ok (below secrets_header) rest ->
  parse_pods (S fuel) (pod_lines pod ++ rest)%list
  = match parse_pods fuel rest with
    | Some ps => Some (canonical_pod pod :: ps)
    | None => None
    end.
Proof.
  intros Hkeys Hp Hv Hs.
  unfold pod_lines. rewrite <- !app_assoc. cbn [app parse_pods].
  unfold name_line, image_line. rewrite !scalar_after_line.
  unfold ports_section.
  rewrite (parse_section_lines ports_header _ (fun p => [port_line p])).
  - unfold vars_section.
    rewrite (parse_section_lines vars_header _ (fun kv => [var_line kv])).
    + unfold secrets_section.
      rewrite (parse_section_lines secrets_header _ secret_lines).
      * reflexivity.
      * apply parse_secrets_lines. now apply below_shallow in Hs.
      * now apply below_differs.
    + apply parse_entries_lines.
      * revert Hkeys. apply Forall_impl. intros kv. apply parse_var_line_line.
      * apply (head_ok_weaken shallow); [apply shallow_no_var|].
        apply after_vars; [reflexivity|]. now apply below_shallow in Hs.
    + apply below_differs, after_vars; [now split | assumption].
  - apply parse_entries_lines.
    + apply Forall_forall. intros port _. apply parse_port_line_line.
    + apply (head_ok_weaken shallow); [apply shallow_no_port|].
      apply after_ports; try reflexivity. now apply below_shallow in Hs.
  - apply below_differs, after_ports; [now split | now split | assumption].
Qed.

Lemma parse_pods_tail ps :
  Forall (fun pod => Forall (fun kv => plain_key (fst kv) = true)
                            (elements (vars pod))) ps ->
  forall fuel, length ps < fuel ->
  parse_pods fuel (pods_tail ps) = Some (map canonical_pod ps).
Proof.
  induction 1 as [|pod ps Hpod _ IH]; intros fuel Hfuel.
  - destruct fuel; [lia | reflexivity].
  - destruct fuel as [|fuel]; [simpl in Hfuel; lia|].
    unfold pods_tail. cbn [flat_map]. rewrite <- app_assoc.
    fold (pods_tail ps).
    rewrite parse_pod_block; auto using pods_tail_below.
    rewrite IH by (simpl in Hfuel; lia). reflexivity.
Qed.

Lemma plain_keys_of_single_line ps :
  forallb single_line_pod ps = true ->
  Forall (fun pod => Forall (fun kv => plain_key (fst kv) = true)
                            (elements (vars pod))) ps.
Proof.
  rewrite forallb_forall, Forall_forall. intros H pod Hin.
  specialize (H pod Hin). unfold single_line_pod in H.
  apply andb_prop in H as [H _]. apply andb_prop in H as [_ H].
  rewrite forallb_forall in H. apply Forall_forall. intros kv Hkv.
  specialize (H kv Hkv). unfold single_line_var in H.
  now apply andb_prop in H as [H _].
Qed.

Lemma parse_yaml_lines yaml :
  single_line_yaml yaml = true ->
  parse (unlines (yaml_lines yaml)) = Some (canonical yaml).
Proof.
  intros Hy. unfold parse.
  rewrite split_lines_unlines by now apply yaml_lines_single_line.
  unfold yaml_lines. cbn [app]. fold (pods_tail (pods (application yaml))).
  cbn [String.eqb andb]. rewrite !Ascii.eqb_refl. cbn [andb].
  rewrite scalar_after_line.
  rewrite parse_pods_tail.
  - reflexivity.
  - apply plain_keys_of_single_line. unfold single_line_yaml in Hy.
    now apply andb_prop in Hy as [_ Hy].
  - pose proof (pods_tail_length (pods (application yaml))). lia.
Qed.

Lemma canonical_field_elements {A : Type} (o : option (list A)) :
  elements (canonical_field o) = elements o.
Proof. destruct o as [[|x l]|]; reflexivity. Qed.

Lemma canonical_equal yaml : structurally_equal (canonical yaml) yaml.
Proof.
  split; [reflexivity|]. simpl.
  induction (pods (application yaml)) as [|pod ps IH]; simpl; constructor; auto.
  unfold pod_equal, canonical_pod. simpl.
  now rewrite !canonical_field_elements.
Qed.

End ParserFacts.

(* ================================================================= *)
(** * The cached client *)

Lemma getClient_hit st c token :
  nexlayerClient st = Some c -> getClient token st = (c, st).
Proof. unfold getClient. now intros ->. Qed.

Lemma getClient_calls_hit st c tokens :
  nexlayerClient st = Some c ->
  getClient_calls tokens st = (repeat c (length tokens), st).
Proof.
  intros Hc. induction tokens as [|t ts IH]; [reflexivity|].
  cbn [getClient_calls]. rewrite (getClient_hit st c t Hc), IH. reflexivity.
Qed.

(** C9. Once [getClient] has constructed the client, every later call
    returns that same instance: from a server without a client, a first
    call with token [first] followed by calls with any tokens [later]
    returns one and the same object every time; it keeps the first token,
    the base URL stays the default one, and the server still holds it. *)
Theorem getClient_cached (st : Server) (first : option string)
  (later : list (option string)) :
  nexlayerClient st = None ->
  let c := new_client (allocated st)
             (mkConfig first (Some "https://app.nexlayer.io")) in
  getClient_calls (first :: later) st
  = (repeat c (S (length later)), mkServer (Some c) (S (allocated st)))
  /\ sessionToken (config c) = first
  /\ baseURL c = "https://app.nexlayer.io".
Proof.
  intros Hnone c. split; [|split; reflexivity].
  cbn [getClient_calls]. unfold getClient at 1. rewrite Hnone. fold c.
  now rewrite (getClient_calls_hit (mkServer (Some c) (S (allocated st)))
                 c later eq_refl).
Qed.

Lemma getClient_cached_witness :
  nexlayerClient initial_server = None
  /\ fst (getClient_calls [Some "t1"; Some "t2"; None] initial_server)
     = repeat (new_client 0 (mkConfig (Some "t1") (Some "https://app.nexlayer.io"))) 3.
Proof.
  split; [reflexivity|].
  destruct (getClient_cached initial_server (Some "t1") [Some "t2"; None] eq_refl)
    as [E _].
  now rewrite E.
Defined.

(* ================================================================= *)
(** * Construction does not validate *)

(** C2, as stated, fails: an empty application name and an empty pod list
    are both accepted, and a manifest is produced for each. *)
Lemma empty_name_and_empty_pods_accepted :
  generateYaml_call EmptyString [web_pod]
  = Returned (unlines [ "application:";
                        "  name: " ++ DQ ++ DQ;
                        "  pods:";
                        "    - name: " ++ DQ ++ "web" ++ DQ;
                        "      image: " ++ DQ ++ "nginx:1.25" ++ DQ;
                        "      servicePorts:";
                        "        - 80";
                        "      vars:";
                        "        MODE: " ++ DQ ++ "prod" ++ DQ ])
  /\ generateYaml_call "x" []
     = Returned (unlines [ "application:";
                           "  name: " ++ DQ ++ "x" ++ DQ;
                           "  pods:" ])
  /\ ~ (exists m, generateYaml_call EmptyString [web_pod] = Thrown m)
  /\ ~ (exists m, generateYaml_call "x" [] = Thrown m).
Proof.
  repeat split; try reflexivity; intros [m H]; discriminate H.
Qed.

(** C2, amended. [generateYaml] checks nothing: for every application
    name and every pod list, the empty name and the empty list included,
    the call returns a manifest and never fails; for an empty pod list the
    manifest is its three header lines. *)
Theorem generateYaml_accepts_everything (applicationName : string)
  (pods : list PodConfig) :
  generateYaml_call applicationName pods
  = Returned (unlines (Layout.yaml_lines
                         (mkYaml (mkApplication applicationName pods))))
  /\ generateYaml_call applicationName []
     = Returned (unlines [ "application:";
                           "  name: " ++ quoted applicationName;
                           "  pods:" ])
  /\ forall m, generateYaml_call applicationName pods <> Thrown m.
Proof.
  unfold generateYaml_call, NexlayerApiClient.generateYaml.
  rewrite !ApiRefinement.yamlToString_lines.
  repeat split; try reflexivity. intros m H; discriminate H.
Qed.

(** C3, as stated, fails: ports 0 and 65536 are accepted and written to
    the manifest, next to 1 and 65535. *)
Lemma out_of_range_ports_accepted :
  generateYaml_call "x" [out_of_range_pod]
  = Returned (unlines [ "application:";
                        "  name: " ++ DQ ++ "x" ++ DQ;
                        "  pods:";
                        "    - name: " ++ DQ ++ "a" ++ DQ;
                        "      image: " ++ DQ ++ "img" ++ DQ;
                        "      servicePorts:";
                        "        - 0";
                        "        - 65536";
                        "        - 1";
                        "        - 65535" ])
  /\ ~ (exists m, generateYaml_call "x" [out_of_range_pod] = Thrown m).
Proof.
  split; [reflexivity|]. intros [m H]; discriminate H.
Qed.

Lemma in_section {A : Type} header (entry : A -> list string) o x l :
  In x (elements o) -> In l (entry x) -> In l (section header entry o).
Proof.
  intros Hx Hl. destruct o as [[|y ys]|]; try contradiction.
  cbn [section]. right. apply in_flat_map. now exists x.
Qed.

Lemma in_pod_lines_yaml_lines yaml pod l :
  In pod (pods (application yaml)) -> In l (Layout.pod_lines pod) ->
  In l (Layout.yaml_lines yaml).
Proof.
  intros Hpod Hl. unfold Layout.yaml_lines. do 3 right.
  apply in_flat_map. now exists pod.
Qed.

(* ================================================================= *)
(** * Validation is remote *)

(** C4, as stated, fails: the result of validation is not a function of
    the manifest alone.  Two platforms answer differently for the same
    text, and a manifest with two problems comes back as valid, without
    findings, when the platform says so. *)
Lemma validation_follows_the_remote :
  ~ (exists validate : string -> ValidationResult,
        forall post yamlContent,
          validateYaml post yamlContent = Returned (validate yamlContent))
  /\ validateYaml accepting_remote two_problem_manifest
     = Returned (mkResult true None None)
  /\ validate_yaml_tool accepting_remote two_problem_manifest = "YAML is valid!".
Proof.
  split; [|split; reflexivity].
  intros [validate H].
  pose proof (H accepting_remote EmptyString) as Ha.
  pose proof (H rejecting_remote EmptyString) as Hr.
  cbv [validateYaml accepting_remote rejecting_remote] in Ha, Hr.
  rewrite <- Ha in Hr. discriminate Hr.
Qed.

(** A rejected request surfaces as a failure that names the operation. *)
Lemma validateYaml_rejected post_validate yamlContent response_error message :
  post_validate yamlContent = Rejected response_error message ->
  validateYaml post_validate yamlContent
  = Thrown ("Failed to validate YAML: " ++ or_else response_error message).
Proof. unfold validateYaml. now intros ->. Qed.

(* ================================================================= *)
(** * Rendering *)



(** The text does depend on the order in which [vars] yields its entries:
    the order has to be kept for the text to be reproducible. *)
Example vars_order_matters :
  NexlayerApiClient.generateYaml "x"
    [mkPod "a" "i" None (Some [("A", "1"); ("B", "2")]) None]
  <> NexlayerApiClient.generateYaml "x"
    [mkPod "a" "i" None (Some [("B", "2"); ("A", "1")]) None].
Proof. intros H. vm_compute in H. discriminate H. Qed.

(** C6, as stated, fails for the manifests of [generateNexlayerYaml]: its
    string scalars are written bare, and the text holds no quote at all. *)
Lemma file_generator_does_not_quote :
  FileGenerator.generateNexlayerYaml blog_params
  = join LF [ "application:";
              "  name: blog";
              "  description: blog application";
              EmptyString;
              "pods:";
              "  - name: web";
              "    image: nginx:1.25";
              "    servicePorts:";
              "      - 80";
              "    vars:";
              "      MODE: prod" ]
  /\ includes (quoted "web") (FileGenerator.generateNexlayerYaml blog_params)
     = false
  /\ has_char dq_char (FileGenerator.generateNexlayerYaml blog_params) = false.
Proof. repeat split; reflexivity. Qed.

(** C6, amended. [yamlToString] writes the lines of [Layout.yaml_lines]:
    every string scalar between quotes, every port as a bare numeral, and
    in each pod block the fields in the order name, image, servicePorts,
    vars, secrets.  [generateNexlayerYaml] writes the lines of
    [FileLayout.file_lines]: the same order without secrets, with string
    scalars not quoted. *)
Theorem serializers_write_their_layouts (yaml : NexlayerYaml)
  (params : GenerateNexlayerYamlParams) :
  NexlayerApiClient.yamlToString yaml = unlines (Layout.yaml_lines yaml)
  /\ FileGenerator.generateNexlayerYaml params
     = join LF (FileLayout.file_lines params).
Proof.
  split.
  - apply ApiRefinement.yamlToString_lines.
  - apply FileRefinement.generateNexlayerYaml_lines.
Qed.



(* ================================================================= *)
(** * Round trip *)

Lemma one_pod_renders_as_two :
  NexlayerApiClient.yamlToString one_pod_app
  = NexlayerApiClient.yamlToString two_pod_app.
Proof. reflexivity. Qed.

(** C1, as stated, fails: two valid applications, one with one pod and one
    with two, render to the same text, so no parser whatever reads every
    rendered manifest back to the application it came from. *)
Lemma round_trip_fails :
  spec_valid one_pod_app = true
  /\ spec_valid two_pod_app = true
  /\ ~ (exists parse : string -> option NexlayerYaml,
          forall a, spec_valid a = true ->
            exists a', parse (NexlayerApiClient.yamlToString a) = Some a'
                       /\ structurally_equal a' a).
Proof.
  split; [reflexivity|]. split; [reflexivity|].
  intros [parse H].
  destruct (H one_pod_app eq_refl) as (a1 & E1 & _ & P1).
  destruct (H two_pod_app eq_refl) as (a2 & E2 & _ & P2).
  rewrite one_pod_renders_as_two, E2 in E1. injection E1 as ->.
  apply Forall2_length in P1, P2. rewrite P1 in P2. discriminate P2.
Qed.

(** A colon in a var name has the same effect within a single line. *)
Example colon_in_var_name_is_ambiguous :
  spec_valid (mkYaml (mkApplication "x" [colon_name_pod])) = true
  /\ spec_valid (mkYaml (mkApplication "x" [colon_value_pod])) = true
  /\ NexlayerApiClient.generateYaml "x" [colon_name_pod]
     = NexlayerApiClient.generateYaml "x" [colon_value_pod]
  /\ vars colon_name_pod <> vars colon_value_pod.
Proof. repeat split; try reflexivity. intros H. discriminate H. Qed.

(** An empty collection and an absent one are written alike. *)
Example empty_collection_renders_as_absent :
  NexlayerApiClient.generateYaml "x" [mkPod "a" "i" (Some []) (Some []) (Some [])]
  = NexlayerApiClient.generateYaml "x" [mkPod "a" "i" None None None].
Proof. reflexivity. Qed.

(** The parser fails on a pod block without its [name] key, on a value
    whose closing quote is missing and on a port that is not a number. *)
Example parse_rejects_malformed_text :
  Parser.parse (unlines [ "application:"; "  name: " ++ quoted "x"; "  pods:";
                          "      image: " ++ quoted "i" ]) = None
  /\ Parser.parse (unlines [ "application:"; "  name: " ++ quoted "x"; "  pods:";
                             "    - name: " ++ quoted "a";
                             "      image: " ++ DQ ++ "i" ]) = None
  /\ Parser.parse (unlines [ "application:"; "  name: " ++ quoted "x"; "  pods:";
                             "    - name: " ++ quoted "a";
                             "      image: " ++ quoted "i";
                             "      servicePorts:";
                             "        - http" ]) = None.
Proof. repeat split; reflexivity. Qed.

(** C1, amended. For every application whose strings hold no line feed
    and whose var names hold no colon, parsing the rendered text succeeds
    and yields the application again, an empty collection being read back
    as an absent one: the result is structurally equal to the
    application. *)
Theorem parse_render_round_trip (yaml : NexlayerYaml) :
  single_line_yaml yaml = true ->
  Parser.parse (NexlayerApiClient.yamlToString yaml) = Some (canonical yaml)
  /\ structurally_equal (canonical yaml) yaml.
Proof.
  intros Hy. split.
  - rewrite ApiRefinement.yamlToString_lines.
    now apply ParserFacts.parse_yaml_lines.
  - apply ParserFacts.canonical_equal.
Qed.

Lemma parse_render_round_trip_witness :
  single_line_yaml blog = true
  /\ Parser.parse (NexlayerApiClient.yamlToString blog) = Some blog.
Proof.
  split; [reflexivity|].
  exact (proj1 (parse_render_round_trip blog eq_refl)).
Defined.

(* ================================================================= *)
(** * Which keys a block has *)

Lemma section_differs {A : Type} key header (entry : A -> list string) o :
  differs key header ->
  (forall x, Forall (differs key) (entry x)) ->
  Forall (differs key) (section header entry o).
Proof.
  intros Hh He. destruct o as [[|x l]|]; try constructor; [exact Hh|].
  apply Forall_flat_map, Forall_forall. intros y _. apply He.
Qed.

Lemma flat_map_differs {A : Type} key (f : A -> list string) l :
  (forall x, Forall (differs key) (f x)) ->
  Forall (differs key) (flat_map f l).
Proof. intros H. apply Forall_flat_map, Forall_forall. intros y _. apply H. Qed.

Lemma differs_not_in key ls : Forall (differs key) ls -> ~ In key ls.
Proof.
  intros H Hin. rewrite Forall_forall in H. specialize (H key Hin).
  unfold differs in H. now rewrite String.eqb_refl in H.
Qed.

Ltac lines_differ :=
  repeat first
    [ apply Forall_nil
    | apply Forall_cons
    | apply Forall_app; split
    | apply section_differs
    | apply flat_map_differs
    | intros ?
    | reflexivity ].

Module Keys.
Import Layout.

Lemma ports_key pod :
  In ports_header (pod_lines pod) <-> present_nonempty (servicePorts pod) = true.
Proof.
  split.
  - intros Hin. destruct (present_nonempty (servicePorts pod)) eqn:E;
      [reflexivity|]. exfalso. revert Hin. apply differs_not_in.
    unfold pod_lines, ports_section. rewrite (section_absent _ _ _ E).
    unfold vars_section, secrets_section.
    lines_differ.
  - intros E. unfold pod_lines, ports_section. rewrite (section_present _ _ _ E).
    right. right. now left.
Qed.

Lemma vars_key pod :
  In vars_header (pod_lines pod) <-> present_nonempty (vars pod) = true.
Proof.
  split.
  - intros Hin. destruct (present_nonempty (vars pod)) eqn:E;
      [reflexivity|]. exfalso. revert Hin. apply differs_not_in.
    unfold pod_lines, vars_section. rewrite (section_absent _ _ _ E).
    unfold ports_section, secrets_section.
    lines_differ.
  - intros E. unfold pod_lines, vars_section. rewrite (section_present _ _ _ E).
    apply in_or_app. right. apply in_or_app. left. now left.
Qed.

Lemma secrets_key pod :
  In secrets_header (pod_lines pod) <-> present_nonempty (secrets pod) = true.
Proof.
  split.
  - intros Hin. destruct (present_nonempty (secrets pod)) eqn:E;
      [reflexivity|]. exfalso. revert Hin. apply differs_not_in.
    unfold pod_lines, secrets_section. rewrite (section_absent _ _ _ E).
    unfold ports_section, vars_section.
    lines_differ.
  - intros E. unfold pod_lines, secrets_section.
    rewrite (section_present _ _ _ E).
    apply in_or_app. right. apply in_or_app. right. now left.
Qed.

End Keys.

Module FileKeys.
Import FileLayout.

Lemma file_ports_key pod :
  In ports_header (pod_lines pod) <-> present_nonempty (servicePorts pod) = true.
Proof.
  split.
  - intros Hin. destruct (present_nonempty (servicePorts pod)) eqn:E;
      [reflexivity|]. exfalso. revert Hin. apply differs_not_in.
    unfold pod_lines, ports_section. rewrite (section_absent _ _ _ E).
    unfold vars_section.
    lines_differ.
  - intros E. unfold pod_lines, ports_section. rewrite (section_present _ _ _ E).
    right. right. now left.
Qed.

Lemma file_vars_key pod :
  In vars_header (pod_lines pod) <-> present_nonempty (vars pod) = true.
Proof.
  split.
  - intros Hin. destruct (present_nonempty (vars pod)) eqn:E;
      [reflexivity|]. exfalso. revert Hin. apply differs_not_in.
    unfold pod_lines, vars_section. rewrite (section_absent _ _ _ E).
    unfold ports_section.
    lines_differ.
  - intros E. unfold pod_lines, vars_section. rewrite (section_present _ _ _ E).
    apply in_or_app. right. now left.
Qed.


End FileKeys.

(* ================================================================= *)
(** * The lines of a pod block, read off the text *)

Lemma split_lines_single l : single_line l = true -> split_lines l = [l].
Proof.
  induction l as [|c l IH]; intros Hl; [reflexivity|].
  rewrite single_line_cons in Hl. apply andb_prop in Hl as [Hc Hl].
  apply negb_true_iff in Hc. cbn [split_lines]. now rewrite Hc, IH.
Qed.

Lemma split_lines_separated_after l ls :
  single_line l = true -> forallb single_line ls = true ->
  split_lines (l ++ separated ls) = l :: ls.
Proof.
  revert l. induction ls as [|l' ls IH]; intros l Hl Hls.
  - change (separated []) with EmptyString. rewrite append_empty_r.
    now apply split_lines_single.
  - cbn [forallb] in Hls. apply andb_prop in Hls as [Hl' Hls].
    rewrite separated_cons, split_lines_line by assumption.
    now rewrite IH.
Qed.

Lemma split_lines_separated l ls :
  forallb single_line (l :: ls) = true ->
  split_lines (separated (l :: ls)) = EmptyString :: l :: ls.
Proof.
  intros H. cbn [forallb] in H. apply andb_prop in H as [Hl Hls].
  rewrite separated_cons.
  change (LF ++ l ++ separated ls) with (EmptyString ++ LF ++ (l ++ separated ls)).
  rewrite split_lines_line by reflexivity.
  now rewrite split_lines_separated_after.
Qed.

Lemma file_pod_lines_single_line pod :
  single_line_pod pod = true ->
  forallb single_line (FileLayout.pod_lines pod) = true.
Proof.
  unfold single_line_pod. intros H.
  apply andb_prop in H as [H _]. apply andb_prop in H as [H Hvars].
  apply andb_prop in H as [Hname Himage].
  unfold FileLayout.pod_lines. apply forallb_app_true.
  - cbn [forallb]. unfold FileLayout.name_line, FileLayout.image_line.
    rewrite !single_line_app, Hname, Himage. simpl.
    apply (section_single_line _ _ (fun _ => true)); auto using forallb_trivial.
    intros x _. cbn [forallb]. unfold FileLayout.port_line.
    now rewrite single_line_app, number_single_line.
  - apply (section_single_line _ _ single_line_var); auto.
    intros [k v] Hkv. unfold single_line_var, plain_key in Hkv. simpl in Hkv.
    apply andb_prop in Hkv as [Hk Hv]. apply andb_prop in Hk as [Hk _].
    cbn [forallb]. unfold FileLayout.var_line. simpl fst; simpl snd.
    rewrite !single_line_app, Hk, Hv. reflexivity.
Qed.

(* ================================================================= *)
(** * The file generator and secrets *)





(** On a pod with a secret: neither the key nor the payload is in the text
    of [generateNexlayerYaml], and both are in the text of
    [generateYaml]. *)
Example secret_payload_not_in_file :
  includes "secrets" (FileGenerator.generateNexlayerYaml secret_params) = false
  /\ includes "s3cr3t" (FileGenerator.generateNexlayerYaml secret_params) = false
  /\ includes "s3cr3t" (NexlayerApiClient.generateYaml "shop" [secret_pod]) = true.
Proof. repeat split; reflexivity. Qed.

(* ================================================================= *)
(** * More of the code: Dockerfiles *)

Lemma starts_with_app p s : starts_with p (p ++ s) = true.
Proof. unfold starts_with. now rewrite ParserFacts.strip_prefix_app. Qed.

Lemma includes_here n h : starts_with n h = true -> includes n h = true.
Proof. intros H. destruct h; simpl; now rewrite H. Qed.

Lemma includes_after n a h : includes n h = true -> includes n (a ++ h) = true.
Proof.
  intros H. induction a as [|c a IH]; [exact H|].
  change (String c a ++ h) with (String c (a ++ h)).
  cbn [includes]. rewrite IH. apply orb_true_r.
Qed.

Lemma includes_middle n a b : includes n (a ++ n ++ b) = true.
Proof. apply includes_after, includes_here, starts_with_app. Qed.

Lemma in_removelast_split {A : Type} (x : A) l :
  In x (removelast l) -> exists a c b, l = (a ++ x :: c :: b)%list.
Proof.
  induction l as [|y l IH]; [contradiction|].
  destruct l as [|z l]; [contradiction|].
  change (removelast (y :: z :: l)) with (y :: removelast (z :: l)).
  intros [<-|Hin].
  - now exists [], z, l.
  - destruct (IH Hin) as (a & c & b & E). exists (y :: a), c, b.
    now rewrite E.
Qed.

Lemma includes_inner_line x ls :
  In x (inner_lines ls) -> includes (LF ++ x ++ LF) (join LF ls) = true.
Proof.
  unfold inner_lines. destruct ls as [|l rest]; [contradiction|].
  cbn [tl]. intros Hin.
  destruct (in_removelast_split x rest Hin) as (a & c & b & ->).
  rewrite join_separated, separated_app, !separated_cons.
  replace (l ++ separated a ++ LF ++ x ++ LF ++ c ++ separated b)
    with ((l ++ separated a) ++ (LF ++ x ++ LF) ++ (c ++ separated b))
    by now rewrite !append_assoc.
  apply includes_middle.
Qed.

Ltac find_line := cbn [inner_lines tl removelast];
  repeat first [ left; reflexivity | right ].

Ltac decide_switch :=
  repeat match goal with
         | |- context [String.eqb ?a ?b] =>
             let v := eval vm_compute in (String.eqb a b) in
             change (String.eqb a b) with v
         end;
  cbn [orb]; cbv iota.

Ltac switch_on_type :=
  repeat match goal with
         | |- context [String.eqb ?a ?b] =>
             destruct (String.eqb_spec a b); [subst; cbn|]
         end.

Module DockerfileFacts.
Import Dockerfiles.

Lemma generateDockerfile_cases (params : GenerateDockerfileParams) :
  ((exists text, generateDockerfile params = Returned text)
   <-> truthy (customDockerfile params) = true
       \/ In (type params) supported_types)
  /\ (truthy (customDockerfile params) = false ->
      ~ In (type params) supported_types ->
      generateDockerfile params
      = Thrown ("Unsupported application type: " ++ type params))
  /\ (forall text, customDockerfile params = Some text -> nonempty text = true ->
      generateDockerfile params = Returned text).
Proof.
  destruct params as [n t b p bc sc ds custom]. cbn [customDockerfile type].
  split; [|split].
  - destruct custom as [[|c s]|]; unfold generateDockerfile;
      cbn [customDockerfile type truthy];
      try (split; [intros _; now left | intros _; eauto]);
      (split;
       [ intros [text H]; right; revert H; switch_on_type;
         try (intros _; unfold supported_types; simpl; tauto);
         try discriminate
       | intros [H|H]; [discriminate H|];
         unfold supported_types in H; simpl in H;
         repeat (destruct H as [<-|H]; [cbn; eauto|]); contradiction ]).
  - intros Hc Hn. unfold generateDockerfile. cbn [customDockerfile type].
    destruct custom as [[|c s]|]; try discriminate Hc;
      switch_on_type;
      try (exfalso; apply Hn; unfold supported_types; simpl; tauto);
      reflexivity.
  - intros text -> Hne. destruct text; [discriminate Hne | reflexivity].
Qed.

(** X1. [generateDockerfile] returns a Dockerfile exactly when a non-empty
    custom Dockerfile is given or the type is one of the eleven the switch
    knows; every other type, the declared [angular] and [custom] among
    them, is refused with a message naming it.  A non-empty custom
    Dockerfile is returned as it is, whatever the type. *)
Theorem generateDockerfile_supported (params : GenerateDockerfileParams) :
  ((exists text, generateDockerfile params = Returned text)
   <-> truthy (customDockerfile params) = true
       \/ In (type params) supported_types)
  /\ (truthy (customDockerfile params) = false ->
      ~ In (type params) supported_types ->
      generateDockerfile params
      = Thrown ("Unsupported application type: " ++ type params))
  /\ (forall text, customDockerfile params = Some text -> nonempty text = true ->
      generateDockerfile params = Returned text).
Proof. exact (generateDockerfile_cases params). Qed.

Lemma generateDockerfile_witness_angular :
  generateDockerfile (plain_params "shop" "angular" 4200)
  = Thrown "Unsupported application type: angular".
Proof.
  apply (proj1 (proj2 (generateDockerfile_supported
                         (plain_params "shop" "angular" 4200)))).
  - reflexivity.
  - unfold supported_types. simpl. intuition discriminate.
Defined.

Lemma dockerfile_of_supported_type (params : GenerateDockerfileParams) :
  truthy (customDockerfile params) = false ->
  In (type params) supported_types ->
  exists text,
    generateDockerfile params = Returned text
    /\ starts_with "FROM " text = true
    /\ includes (LF ++ ("EXPOSE " ++ string_of_number (exposed_port params)) ++ LF)
                text = true.
Proof.
  destruct params as [n t b p bc sc ds custom].
  unfold exposed_port. cbn [customDockerfile type port]. intros Hc Ht.
  unfold generateDockerfile. cbn [customDockerfile type port name baseImage
    buildCommand startCommand dependencies].
  assert (E : forall k : outcome string,
             match custom with
             | Some (String c s) => Returned (String c s)
             | _ => k
             end = k).
  { intros k. now destruct custom as [[|c s]|]. }
  rewrite E. clear E Hc.
  unfold supported_types in Ht. simpl in Ht.
  repeat (destruct Ht as [<-|Ht];
          [ decide_switch;
            eexists; split; [reflexivity|]; split;
            [ reflexivity
            | unfold generateNodeDockerfile, generateReactDockerfile,
                generateNextDockerfile, generateVueDockerfile,
                generatePythonDockerfile, generateGoDockerfile,
                generateRustDockerfile, generatePhpDockerfile,
                generateJavaDockerfile, generateDotnetDockerfile;
              apply includes_inner_line; find_line ]
          | ]).
  contradiction.
Qed.


(** X2. Every Dockerfile the templates produce starts with a [FROM] line
    and has the line [EXPOSE <port>] for the port asked for, 3000 when
    none is given; a port of 0 is kept, the default standing in for a
    missing port only. *)
Theorem generated_dockerfile_exposes_port (params : GenerateDockerfileParams) :
  truthy (customDockerfile params) = false ->
  In (type params) supported_types ->
  exists text,
    generateDockerfile params = Returned text
    /\ starts_with "FROM " text = true
    /\ includes (LF ++ ("EXPOSE " ++ string_of_number (exposed_port params)) ++ LF)
                text = true.
Proof. exact (dockerfile_of_supported_type params). Qed.

Lemma generated_dockerfile_exposes_port_witness :
  exists text,
    generateDockerfile (plain_params "shop" "python" 0) = Returned text
    /\ starts_with "FROM " text = true
    /\ includes (LF ++ "EXPOSE 0" ++ LF) text = true.
Proof.
  apply (generated_dockerfile_exposes_port (plain_params "shop" "python" 0)).
  - reflexivity.
  - unfold supported_types. simpl. tauto.
Defined.

Lemma starts_with_assoc a b c : starts_with (a ++ b) (a ++ b ++ c) = true.
Proof. rewrite <- append_assoc. apply starts_with_app. Qed.

(** X3. [baseImage] decides the first line of the python, go, rust, php,
    java and dotnet templates when it is given and not empty: the text is
    [FROM], the image as given, [ as builder] for go and rust, a line
    feed and the rest.  The node, react, next, nextjs and vue templates
    never look at it. *)
Theorem baseImage_use (params : GenerateDockerfileParams) (b : option string) :
  (In (type params) fixed_image_types ->
   generateDockerfile (with_baseImage b params) = generateDockerfile params)
  /\ (truthy (customDockerfile params) = false ->
      In (type params) base_image_types ->
      forall image, b = Some image -> nonempty image = true ->
      exists rest,
        generateDockerfile (with_baseImage b params)
        = Returned ("FROM " ++ image ++ builder_suffix (type params)
                      ++ LF ++ rest)).
Proof.
  destruct params as [n t b0 p bc sc ds custom].
  unfold with_baseImage, generateDockerfile.
  cbn [customDockerfile type port name baseImage buildCommand startCommand
       dependencies].
  split.
  - intros Ht. unfold fixed_image_types in Ht. simpl in Ht.
    destruct custom as [[|c s]|]; try reflexivity;
      repeat (destruct Ht as [<-|Ht]; [reflexivity|]); contradiction.
  - intros Hc Ht image -> Hne.
    assert (E : forall k : outcome string,
               match custom with
               | Some (String c s) => Returned (String c s)
               | _ => k
               end = k).
    { intros k. now destruct custom as [[|c s]|]. }
    rewrite E. clear E Hc.
    assert (Himage : forall d, or_else (Some image) d = image).
    { intros d. destruct image; [discriminate Hne | reflexivity]. }
    unfold base_image_types in Ht. simpl in Ht.
    repeat (destruct Ht as [<-|Ht];
            [ decide_switch; eexists;
              unfold generatePythonDockerfile, generateGoDockerfile,
                generateRustDockerfile, generatePhpDockerfile,
                generateJavaDockerfile, generateDotnetDockerfile;
              cbv zeta;
              rewrite Himage, join_separated, separated_cons, ?append_assoc;
              reflexivity
            | ]).
    contradiction.
Qed.

Lemma baseImage_use_witness :
  generateDockerfile
    (mkDockerfileParams "shop" "vue" (Some "node:20") None None None None None)
  = generateDockerfile
      (mkDockerfileParams "shop" "vue" None None None None None None)
  /\ exists rest,
       generateDockerfile
         (mkDockerfileParams "shop" "go" (Some "golang:1.22") None None None
            None None)
       = Returned ("FROM golang:1.22 as builder" ++ LF ++ rest).
Proof.
  split.
  - apply (proj1 (baseImage_use
                    (mkDockerfileParams "shop" "vue" None None None None None None)
                    (Some "node:20"))).
    unfold fixed_image_types. simpl. tauto.
  - apply (proj2 (baseImage_use
                    (mkDockerfileParams "shop" "go" None None None None None None)
                    (Some "golang:1.22"))
             eq_refl) with (image := "golang:1.22");
      try reflexivity.
    unfold base_image_types. simpl. tauto.
Defined.

End DockerfileFacts.

(* ================================================================= *)
(** * More of the code: project analysis *)

Module AnalysisFacts.
Import ProjectAnalysis.








End AnalysisFacts.

(* ================================================================= *)
(** * More of the code: running docker *)

Module CommandFacts.
Import Commands.

Lemma accumulate_chunks chunks acc :
  forEach chunks (fun chunk acc => acc ++ chunk) acc
  = acc ++ String.concat EmptyString chunks.
Proof.
  revert acc. induction chunks as [|c chunks IH]; intros acc.
  - simpl. now rewrite append_empty_r.
  - rewrite forEach_cons, IH, concat_empty_cons. now rewrite append_assoc.
Qed.

Lemma nonempty_app s t : nonempty (s ++ t) = nonempty s || nonempty t.
Proof. destruct s; reflexivity. Qed.

Lemma nonempty_concat chunks :
  nonempty (String.concat EmptyString chunks)
  = negb (forallb (fun chunk => negb (nonempty chunk)) chunks).
Proof.
  induction chunks as [|c chunks IH]; [reflexivity|].
  rewrite concat_empty_cons, nonempty_app, IH. cbn [forallb].
  now rewrite negb_andb, negb_involutive.
Qed.

Lemma nonempty_or_else s d :
  nonempty d = true -> nonempty (or_else (Some s) d) = true.
Proof. intros H. destruct s; [exact H | reflexivity]. Qed.

Lemma error_of_run run :
  nonempty (error (executeCommand run)) = negb (quiet run).
Proof.
  unfold executeCommand, quiet. rewrite !accumulate_chunks.
  change (EmptyString ++ String.concat EmptyString (stderr run))
    with (String.concat EmptyString (stderr run)).
  destruct (exit_code run) as [[|c|c]|]; cbn [error];
    try (rewrite nonempty_or_else; reflexivity).
  rewrite nonempty_concat. reflexivity.
Qed.

(** X6. The error text of [executeCommand] is what the process wrote to
    its error stream when that is not empty; otherwise it is empty for
    exit code 0 and [Process exited with code <code>] for any other code,
    [null] included.  So an error is reported exactly when the run was
    not quiet.  The output is what was written to the output stream. *)
Theorem executeCommand_error (run : ProcessRun) :
  let written := String.concat EmptyString (stderr run) in
  let result := executeCommand run in
  output result = String.concat EmptyString (stdout run)
  /\ (nonempty written = true -> error result = written)
  /\ (nonempty written = false -> exit_code run = Some 0%Z ->
      error result = EmptyString)
  /\ (nonempty written = false -> exit_code run <> Some 0%Z ->
      error result
      = "Process exited with code " ++ string_of_code (exit_code run))
  /\ (error result = EmptyString <-> quiet run = true).
Proof.
  intros written result.
  assert (Houtput : output result = String.concat EmptyString (stdout run)).
  { unfold result, executeCommand. rewrite accumulate_chunks.
    now destruct (exit_code run) as [[|c|c]|]. }
  assert (Herror : error result
                   = match exit_code run with
                     | Some 0%Z => written
                     | code => or_else (Some written)
                                 ("Process exited with code "
                                    ++ string_of_code code)
                     end).
  { unfold result, executeCommand. rewrite !accumulate_chunks.
    now destruct (exit_code run) as [[|c|c]|]. }
  split; [exact Houtput|]. split; [|split; [|split]].
  - intros H. rewrite Herror.
    destruct (exit_code run) as [[|c|c]|]; destruct written;
      try discriminate; reflexivity.
  - intros H E. rewrite Herror, E. now destruct written.
  - intros H E. rewrite Herror.
    destruct (exit_code run) as [[|c|c]|]; destruct written;
      try discriminate; try reflexivity; now elim E.
  - pose proof (error_of_run run) as H. fold result in H.
    destruct (error result); destruct (quiet run);
      simpl in H; split; intros; auto; discriminate.
Qed.

Lemma executeCommand_error_witness :
  error (executeCommand (mkRun ["Sending build context"] [] (Some 1%Z)))
  = "Process exited with code 1"
  /\ error (executeCommand (mkRun [] ["denied: "; "access"] (Some 1%Z)))
     = "denied: access"
  /\ error (executeCommand (mkRun [] [] None))
     = "Process exited with code null".
Proof.
  split; [|split].
  - exact (proj1 (proj2 (proj2 (proj2 (executeCommand_error
             (mkRun ["Sending build context"] [] (Some 1%Z))))))
             eq_refl ltac:(discriminate)).
  - exact (proj1 (proj2 (executeCommand_error
             (mkRun [] ["denied: "; "access"] (Some 1%Z)))) eq_refl).
  - exact (proj1 (proj2 (proj2 (proj2 (executeCommand_error
             (mkRun [] [] None))))) eq_refl ltac:(discriminate)).
Defined.

(** X7. [build-and-push-docker] pushes only after a quiet build: when the
    build exits with a code other than 0 or writes anything to its error
    stream, even while exiting with 0, the only command run is the build
    and the answer is a build failure; the answer is a success only when
    both runs are quiet. *)
Theorem build_and_push_docker_steps (docker : list string -> ProcessRun)
  (params : BuildAndPushParams) :
  let build := build_arguments params in
  let push := push_arguments params in
  let (commands, text) := build_and_push_docker docker params in
  (quiet (docker build) = false ->
     commands = [build]
     /\ text = "Failed to build and push Docker image: Docker build failed: "
               ++ error (executeCommand (docker build)))
  /\ (quiet (docker build) = true ->
      commands = [build; push]
      /\ (starts_with "Successfully built and pushed Docker image: " text
          = quiet (docker push))).
Proof.
  intros build push. unfold build_and_push_docker.
  fold (full_image_name params). fold (build_arguments params).
  fold (push_arguments params). fold build. fold push.
  rewrite !error_of_run.
  destruct (quiet (docker build)) eqn:Hb; cbn [negb]; cbv iota.
  - destruct (quiet (docker push)) eqn:Hp; cbn [negb]; cbv iota;
      (split; [discriminate|]); intros _; (split; [reflexivity|]).
    + apply starts_with_app.
    + reflexivity.
  - split; [|discriminate]. intros _. split; reflexivity.
Qed.

(** A build that succeeds but prints a warning. *)
Lemma build_and_push_docker_steps_witness :
  let docker := fun _ : list string =>
                  mkRun ["done"] ["WARNING: no cache"] (Some 0%Z) in
  let params := mkBuildAndPushParams "shop" "Dockerfile" None None in
  quiet (docker (build_arguments params)) = false
  /\ build_and_push_docker docker params
     = ([["build"; "-t"; "ttl.sh/shop:1h"; "-f"; "Dockerfile"; "."]],
        "Failed to build and push Docker image: Docker build failed: "
          ++ "WARNING: no cache").
Proof.
  intros docker params. split; [reflexivity|].
  pose proof (build_and_push_docker_steps docker params) as H.
  cbv zeta in H.
  destruct (build_and_push_docker docker params) as [commands text].
  destruct (proj1 H eq_refl) as [-> ->]. reflexivity.
Defined.

End CommandFacts.

(* ================================================================= *)
(** * More of the code: the tools and the platform *)

Module ToolFacts.
Import Api.

Lemma getClient_split token st :
  exists client st', getClient token st = (client, st').
Proof. destruct (getClient token st) as [c st']. eauto. Qed.

(** X8. The session token given to [deploy-application] reaches neither
    the request nor the answer: the tool posts the manifest of its one
    pod as YAML text to [/startUserDeployment], and for the same platform
    its answer is the same for every token and every server state. *)
Theorem deploy_application_ignores_token
  (deployments : Request -> Reply DeploymentResult)
  (params : DeployApplicationParams) (token : option string) (st st' : Server) :
  fst (deploy_application deployments (with_token token params) st')
  = fst (deploy_application deployments params st)
  /\ fst (deploy_application deployments params st)
     = match deployments
               (PostYaml "/startUserDeployment"
                  (NexlayerApiClient.generateYaml (deploy_name params)
                     (deploy_pods params))) with
       | Answered result =>
           "Successfully deployed application " ++ quoted (deploy_name params)
             ++ "!" ++ LF ++ "Session Token: " ++ sessionToken result
             ++ LF ++ "Status: " ++ status result
             ++ LF ++ "URL: " ++ or_else (url result) "Deploying..."
       | Refused response_error message =>
           "Failed to deploy application: Failed to start deployment: "
             ++ or_else response_error message
       end.
Proof.
  assert (H : forall p s,
             fst (deploy_application deployments p s)
             = match deployments
                       (PostYaml "/startUserDeployment"
                          (NexlayerApiClient.generateYaml (deploy_name p)
                             (deploy_pods p))) with
               | Answered result =>
                   "Successfully deployed application " ++ quoted (deploy_name p)
                     ++ "!" ++ LF ++ "Session Token: " ++ sessionToken result
                     ++ LF ++ "Status: " ++ status result
                     ++ LF ++ "URL: " ++ or_else (url result) "Deploying..."
               | Refused response_error message =>
                   "Failed to deploy application: Failed to start deployment: "
                     ++ or_else response_error message
               end).
  { intros p s. unfold deploy_application, startUserDeployment, request.
    destruct (getClient_split (deploy_token p) s) as (c & s1 & ->).
    destruct (deployments _); reflexivity. }
  split; [|apply H]. now rewrite !H.
Qed.

(** X9. [manage-reservation] adds a reservation for the action [add] and
    removes it for every other action, misspelt ones included: the request
    then goes to [/removeDeploymentReservation], and a refusal is reported
    under the action as it was given. *)
Theorem manage_reservation_removes_unless_add
  (acknowledgements : Request -> Reply unit)
  (sessionToken applicationName action : string) (st : Server) :
  action <> "add" ->
  fst (manage_reservation acknowledgements sessionToken applicationName
         action st)
  = match acknowledgements
            (PostJson "/removeDeploymentReservation"
               [("sessionToken", sessionToken);
                ("applicationName", applicationName)]) with
    | Answered _ =>
        "Successfully removed reservation for " ++ quoted applicationName
    | Refused response_error message =>
        "Failed to " ++ action
          ++ " reservation: Failed to remove deployment reservation: "
          ++ or_else response_error message
    end.
Proof.
  intros Haction. apply String.eqb_neq in Haction.
  unfold manage_reservation, removeDeploymentReservation, request.
  destruct (getClient_split (Some sessionToken) st) as (c & s1 & ->).
  rewrite Haction. destruct (acknowledgements _); reflexivity.
Qed.

Lemma manage_reservation_removes_unless_add_witness :
  fst (manage_reservation (fun _ => Answered tt) "t" "shop" "Add"
         initial_server)
  = "Successfully removed reservation for " ++ quoted "shop".
Proof.
  apply (manage_reservation_removes_unless_add (fun _ => Answered tt)
           "t" "shop" "Add" initial_server).
  discriminate.
Defined.

Lemma reservation_lines_nonempty r rs :
  nonempty (join LF (map reservation_line (r :: rs))) = true.
Proof. cbn [map]. rewrite join_separated. reflexivity. Qed.

(** X10. [get-reservations] answers [No reservations found] exactly for
    an empty list; for any other list it writes one line per reservation,
    in order, and never the fallback, whatever the names are. *)
Theorem get_reservations_listing
  (reservation_lists : Request -> Reply (list Reservation))
  (sessionToken : string) (st : Server) (reservations : list Reservation) :
  reservation_lists (GetQuery "/getReservations" [("sessionToken", sessionToken)])
  = Answered reservations ->
  fst (get_reservations reservation_lists sessionToken st)
  = "Reservations:" ++ LF
      ++ match reservations with
         | [] => "No reservations found"
         | _ :: _ => join LF (map reservation_line reservations)
         end.
Proof.
  intros Hreply. unfold get_reservations, getReservations, request.
  destruct (getClient_split (Some sessionToken) st) as (c & s1 & ->).
  rewrite Hreply. cbn [fst]. destruct reservations as [|r rs]; [reflexivity|].
  pose proof (reservation_lines_nonempty r rs) as H.
  destruct (join LF (map reservation_line (r :: rs))); [discriminate H|].
  reflexivity.
Qed.

Lemma get_reservations_listing_witness :
  fst (get_reservations
         (fun _ => Answered [mkReservation "t" EmptyString "now" EmptyString])
         "t" initial_server)
  = "Reservations:" ++ LF ++ "-  (expires: )".
Proof.
  exact (get_reservations_listing
           (fun _ => Answered [mkReservation "t" EmptyString "now" EmptyString])
           "t" initial_server _ eq_refl).
Defined.

Lemma join_empty_iff es :
  join LF es = EmptyString <-> es = [] \/ es = [EmptyString].
Proof.
  split.
  - destruct es as [|e es]; [now left|]. rewrite join_separated.
    destruct e; [|discriminate]. destruct es as [|e' es]; [now right|].
    rewrite separated_cons. discriminate.
  - intros [->| ->]; reflexivity.
Qed.

(** X11. For an invalid result the [validate-yaml] tool falls back to
    [Unknown error] when the platform sends no errors, an empty list or a
    single empty message; in every other case it prints the messages, one
    per line. *)
Theorem validate_yaml_tool_unknown_error (post_validate : string -> HttpReply)
  (yamlContent : string) (result : ValidationResult) :
  post_validate yamlContent = Response result ->
  valid result = false ->
  validate_yaml_tool post_validate yamlContent
  = "YAML validation failed:" ++ LF ++ "Errors: "
      ++ match errors result with
         | None | Some [] | Some [EmptyString] => "Unknown error"
         | Some es => join LF es
         end.
Proof.
  intros Hpost Hvalid. unfold validate_yaml_tool, validateYaml.
  rewrite Hpost, Hvalid. do 3 f_equal.
  destruct (errors result) as [es|]; [|reflexivity]. cbn [option_map].
  destruct (join LF es) eqn:E.
  - apply join_empty_iff in E as [->| ->]; reflexivity.
  - destruct es as [|e [|e' es]]; try discriminate E;
      destruct e; try discriminate E; try reflexivity;
      now rewrite <- E.
Qed.

Lemma validate_yaml_tool_unknown_error_witness :
  validate_yaml_tool
    (fun _ => Response (mkResult false (Some [EmptyString]) None))
    two_problem_manifest
  = "YAML validation failed:" ++ LF ++ "Errors: Unknown error".
Proof.
  exact (validate_yaml_tool_unknown_error
           (fun _ => Response (mkResult false (Some [EmptyString]) None))
           two_problem_manifest _ eq_refl eq_refl).
Defined.

End ToolFacts.

(* ================================================================= *)
(** * More of the code: the full-stack project *)

Lemma includes_line x ls :
  In x (tl ls) -> includes (LF ++ x) (join LF ls) = true.
Proof.
  destruct ls as [|l rest]; [contradiction|]. cbn [tl]. intros Hin.
  apply in_split in Hin as (a & b & ->).
  rewrite join_separated, separated_app, separated_cons.
  replace (l ++ separated a ++ LF ++ x ++ separated b)
    with ((l ++ separated a) ++ (LF ++ x) ++ separated b)
    by now rewrite !append_assoc.
  apply includes_middle.
Qed.

Lemma distinct_NoDup l : distinct l = true -> NoDup l.
Proof.
  induction l as [|x l IH]; intros H; constructor.
  - cbn [distinct] in H. apply andb_prop in H as [H _].
    apply negb_true_iff in H. intros Hin.
    assert (E : existsb (String.eqb x) l = true).
    { apply existsb_exists. exists x. split; [exact Hin|apply String.eqb_refl]. }
    rewrite E in H. discriminate H.
  - cbn [distinct] in H. apply andb_prop in H as [_ H]. now apply IH.
Qed.

Module FullStackFacts.
Import FullStack.

Lemma dockerfile_returns_iff name type port :
  (exists text,
      Dockerfiles.generateDockerfile
        (Dockerfiles.mkDockerfileParams name type None (Some port)
           None None None None) = Returned text)
  <-> In type Dockerfiles.supported_types.
Proof.
  destruct (DockerfileFacts.generateDockerfile_cases
              (Dockerfiles.mkDockerfileParams name type None (Some port)
                 None None None None)) as [H _].
  rewrite H. cbn. intuition discriminate.
Qed.

Lemma dockerfile_throws name type port :
  ~ In type Dockerfiles.supported_types ->
  Dockerfiles.generateDockerfile
    (Dockerfiles.mkDockerfileParams name type None (Some port)
       None None None None)
  = Thrown ("Unsupported application type: " ++ type).
Proof.
  intros H.
  now apply (proj1 (proj2 (DockerfileFacts.generateDockerfile_cases
                             (Dockerfiles.mkDockerfileParams name type None
                                (Some port) None None None None)))).
Qed.

(** What [generateFullStack] returns, when it returns. *)
Lemma generateFullStack_returned params r :
  generateFullStack params = Returned r ->
  exists dockerfiles,
    generateDockerfilesForFullStack (appName params) (frontend params)
      (backend params) = Returned dockerfiles
    /\ files r
       = (source_files params ++ dockerfiles ++ [manifest_file params])%list
    /\ instructions r
       = join LF (source_instructions params
                    ++ ["nexlayer.yaml generated for deployment"])%list.
Proof.
  unfold generateFullStack.
  destruct (generateDockerfilesForFullStack _ _ _) as [ds|m];
    cbn [and_then_do]; [|discriminate].
  intros [= <-]. exists ds. cbn [files instructions].
  now rewrite <- app_assoc.
Qed.

Lemma dockerfiles_returned appName fe be ds :
  generateDockerfilesForFullStack appName fe be = Returned ds ->
  ds = (when_present fe (fun f =>
          match frontend_dockerfile appName f with
          | Returned c => [mkFile "Dockerfile.frontend" "frontend/Dockerfile" c]
          | Thrown _ => []
          end)
        ++ when_present be (fun b =>
          match backend_dockerfile appName b with
          | Returned c => [mkFile "Dockerfile.backend" "backend/Dockerfile" c]
          | Thrown _ => []
          end))%list
  /\ (forall f, fe = Some f -> exists c, frontend_dockerfile appName f = Returned c)
  /\ (forall b, be = Some b -> exists c, backend_dockerfile appName b = Returned c).
Proof.
  unfold generateDockerfilesForFullStack.
  destruct fe as [f|]; destruct be as [b|]; cbn [when_present and_then_do];
    try destruct (frontend_dockerfile appName f) as [cf|mf] eqn:Ef;
    cbn [and_then_do];
    try destruct (backend_dockerfile appName b) as [cb|mb] eqn:Eb;
    cbn [and_then_do]; try discriminate;
    intros [= <-]; (split; [reflexivity|]);
    split; intros x Hx; try discriminate Hx; injection Hx as <-; eauto.
Qed.

(** X12. [generateFullStack] returns exactly when the type of every part
    that is present has a Dockerfile template; it throws for a frontend of
    the declared type angular, and then names the frontend's type whatever
    the backend is. *)
Theorem generateFullStack_returns_iff (params : LocalFullStackParams) :
  ((exists r, generateFullStack params = Returned r)
   <-> (forall f, frontend params = Some f ->
          In (frontend_type f) Dockerfiles.supported_types)
       /\ (forall b, backend params = Some b ->
             In (backend_type b) Dockerfiles.supported_types))
  /\ (forall f, frontend params = Some f ->
        ~ In (frontend_type f) Dockerfiles.supported_types ->
        generateFullStack params
        = Thrown ("Unsupported application type: " ++ frontend_type f)).
Proof.
  split.
  - split.
    + intros [r Hr].
      destruct (generateFullStack_returned params r Hr) as (ds & Hds & _).
      destruct (dockerfiles_returned _ _ _ _ Hds) as (_ & Hf & Hb).
      split; intros x Hx.
      * apply (dockerfile_returns_iff (appName params ++ "-frontend") _
                 (number_or (frontend_port x) 3000)).
        exact (Hf x Hx).
      * apply (dockerfile_returns_iff (appName params ++ "-backend") _
                 (number_or (backend_port x) 8000)).
        exact (Hb x Hx).
    + intros [Hf Hb]. unfold generateFullStack, generateDockerfilesForFullStack.
      destruct (frontend params) as [f|]; destruct (backend params) as [b|];
        try (destruct (proj2 (dockerfile_returns_iff
                                (appName params ++ "-frontend") _
                                (number_or (frontend_port f) 3000))
                         (Hf f eq_refl)) as [cf Ef];
             unfold frontend_dockerfile; rewrite Ef);
        try (destruct (proj2 (dockerfile_returns_iff
                                (appName params ++ "-backend") _
                                (number_or (backend_port b) 8000))
                         (Hb b eq_refl)) as [cb Eb];
             unfold backend_dockerfile; rewrite Eb);
        cbn [and_then_do]; eauto.
  - intros f Hf Hn. unfold generateFullStack, generateDockerfilesForFullStack.
    rewrite Hf. unfold frontend_dockerfile.
    rewrite (dockerfile_throws _ _ _ Hn). reflexivity.
Qed.

Lemma generateFullStack_returns_iff_witness :
  generateFullStack
    (mkFullStackParams "shop" (Some (mkFrontend "angular" None))
       (Some (mkBackend "node" None None)) None None)
  = Thrown "Unsupported application type: angular".
Proof.
  apply (proj2 (generateFullStack_returns_iff
                  (mkFullStackParams "shop" (Some (mkFrontend "angular" None))
                     (Some (mkBackend "node" None None)) None None))
           (mkFrontend "angular" None) eq_refl).
  unfold Dockerfiles.supported_types. simpl. intuition discriminate.
Defined.

Lemma paths_of_result params r :
  generateFullStack params = Returned r ->
  map path (files r)
  = (map path (source_files params)
     ++ when_present (frontend params) (fun _ => ["frontend/Dockerfile"])
     ++ when_present (backend params) (fun _ => ["backend/Dockerfile"])
     ++ ["nexlayer.yaml"])%list.
Proof.
  intros Hr.
  destruct (generateFullStack_returned params r Hr) as (ds & Hds & -> & _).
  destruct (dockerfiles_returned _ _ _ _ Hds) as (-> & Hf & Hb).
  rewrite !map_app. f_equal. rewrite <- app_assoc. f_equal; [|f_equal].
  - destruct (frontend params) as [f|]; [|reflexivity].
    cbn [when_present]. destruct (Hf f eq_refl) as [c ->]. reflexivity.
  - destruct (backend params) as [b|]; [|reflexivity].
    cbn [when_present]. destruct (Hb b eq_refl) as [c ->]. reflexivity.
Qed.

Ltac split_cases :=
  repeat match goal with
         | |- context [if ?c then _ else _] => destruct c
         end.

(** X13. No two files of a generated project share a path, whatever the
    types of its parts are: writing the files one after the other, as
    [generate-files-locally] does, never overwrites one of them. *)
Theorem full_stack_paths_distinct (params : LocalFullStackParams)
  (r : FileGenerationResult) :
  generateFullStack params = Returned r -> NoDup (map path (files r)).
Proof.
  intros Hr. rewrite (paths_of_result params r Hr).
  apply distinct_NoDup. unfold source_files.
  destruct params as [n fe be db ai]. cbn [frontend backend database openai
    FullStack.appName].
  destruct fe as [f|]; destruct be as [b|]; destruct db as [d|];
    destruct ai as [o|];
    unfold generateFrontendFiles, generateBackendFiles, generateDatabaseFiles,
      generateOpenAIFiles, when_present;
    split_cases; reflexivity.
Qed.

Lemma full_stack_paths_distinct_witness :
  NoDup
    [ "frontend/package.json"; "frontend/src/App.js";
      "frontend/public/index.html"; "backend/package.json"; "backend/app.js";
      "frontend/Dockerfile"; "backend/Dockerfile"; "nexlayer.yaml" ].
Proof.
  exact (full_stack_paths_distinct
           (mkFullStackParams "shop" (Some (mkFrontend "react" None))
              (Some (mkBackend "node" None None)) None None)
           _ eq_refl).
Defined.

Lemma generateFullStack_returns params :
  (forall f, frontend params = Some f ->
     In (frontend_type f) Dockerfiles.supported_types) ->
  (forall b, backend params = Some b ->
     In (backend_type b) Dockerfiles.supported_types) ->
  exists r, generateFullStack params = Returned r.
Proof.
  intros Hf Hb. unfold generateFullStack, generateDockerfilesForFullStack.
  destruct (frontend params) as [f|]; destruct (backend params) as [b|];
    try (destruct (proj2 (dockerfile_returns_iff
                            (appName params ++ "-frontend") _
                            (number_or (frontend_port f) 3000))
                     (Hf f eq_refl)) as [cf Ef];
         unfold frontend_dockerfile; rewrite Ef);
    try (destruct (proj2 (dockerfile_returns_iff
                            (appName params ++ "-backend") _
                            (number_or (backend_port b) 8000))
                     (Hb b eq_refl)) as [cb Eb];
         unfold backend_dockerfile; rewrite Eb);
    cbn [and_then_do]; eauto.
Qed.

(** X14. For a frontend whose type has a Dockerfile template but no case
    in [generateFrontendFiles] (the declared type nextjs is one; the
    declared type angular is not, it has no template and generation
    throws), and a backend, if any, whose type has a template, the
    project is generated and gets a frontend Dockerfile and no other file
    under [frontend/]: no package.json and no source file. *)
Theorem frontend_without_sources (params : LocalFullStackParams)
  (f : Frontend) :
  frontend params = Some f ->
  In (frontend_type f) Dockerfiles.supported_types ->
  ~ In (frontend_type f) frontend_source_types ->
  (forall b, backend params = Some b ->
     In (backend_type b) Dockerfiles.supported_types) ->
  exists r,
    generateFullStack params = Returned r
    /\ In "frontend/Dockerfile" (map path (files r))
    /\ Forall (fun p => starts_with "frontend/" p = true ->
                        p = "frontend/Dockerfile")
              (map path (files r)).
Proof.
  intros Hf Hs Hn Hb.
  destruct (generateFullStack_returns params) as [r Hr].
  { intros f' Ef'. rewrite Hf in Ef'. now injection Ef' as <-. }
  { exact Hb. }
  exists r. split; [exact Hr|].
  rewrite (paths_of_result params r Hr).
  unfold source_files. rewrite Hf. cbn [when_present].
  assert (E : generateFrontendFiles (appName params) f = []).
  { unfold generateFrontendFiles.
    unfold frontend_source_types in Hn. simpl in Hn.
    destruct (String.eqb_spec (frontend_type f) "react") as [E|_];
      [rewrite E in Hn; tauto|].
    destruct (String.eqb_spec (frontend_type f) "vue") as [E|_];
      [rewrite E in Hn; tauto|].
    destruct (String.eqb_spec (frontend_type f) "next") as [E|_];
      [rewrite E in Hn; tauto|].
    reflexivity. }
  rewrite E. clear E. split.
  - apply in_or_app. right. now left.
  - destruct (backend params) as [b|]; destruct (database params) as [d|];
      destruct (openai params) as [o|];
      unfold generateBackendFiles, generateDatabaseFiles, generateOpenAIFiles,
        when_present;
      split_cases; cbn [map path app];
      repeat (constructor; [intros H; try discriminate H; reflexivity|]);
      constructor.
Qed.

Lemma frontend_without_sources_witness :
  exists r,
    generateFullStack
      (mkFullStackParams "shop" (Some (mkFrontend "nextjs" None))
         (Some (mkBackend "node" None None)) None None) = Returned r
    /\ In "frontend/Dockerfile" (map path (files r))
    /\ Forall (fun p => starts_with "frontend/" p = true ->
                        p = "frontend/Dockerfile")
              (map path (files r)).
Proof.
  apply (frontend_without_sources
           (mkFullStackParams "shop" (Some (mkFrontend "nextjs" None))
              (Some (mkBackend "node" None None)) None None)
           (mkFrontend "nextjs" None) eq_refl).
  - unfold Dockerfiles.supported_types. simpl. tauto.
  - unfold frontend_source_types. simpl. intuition discriminate.
  - intros b [= <-]. unfold Dockerfiles.supported_types. simpl. tauto.
Defined.

Lemma join_app_separated (l : string) (ls ms : list string) :
  join LF ((l :: ls) ++ ms)%list = join LF (l :: ls) ++ separated ms.
Proof.
  cbn [app]. now rewrite !join_separated, separated_app, append_assoc.
Qed.

Lemma dockerfile_exposes name type port text :
  Dockerfiles.generateDockerfile
    (Dockerfiles.mkDockerfileParams name type None (Some port)
       None None None None) = Returned text ->
  includes (LF ++ ("EXPOSE " ++ string_of_number port) ++ LF) text = true.
Proof.
  intros Htext.
  destruct (DockerfileFacts.dockerfile_of_supported_type
              (Dockerfiles.mkDockerfileParams name type None (Some port)
                 None None None None)) as (text' & E & _ & H).
  - reflexivity.
  - apply (dockerfile_returns_iff name type port). eauto.
  - rewrite Htext in E. injection E as <-. exact H.
Qed.

(** X15. In a generated project the port a part's Dockerfile exposes is
    the port its pod has in [nexlayer.yaml]: the port given, or the
    default (3000 for the frontend, 8000 for the backend) when the port is
    missing or 0.  The manifest is the five header lines followed by one
    block of four lines for the frontend and then one for the backend,
    each naming the pod, its image and, under [servicePorts:], that one
    port; the Dockerfile of the part has the line [EXPOSE <port>]. *)
Theorem full_stack_ports_agree (params : LocalFullStackParams)
  (r : FileGenerationResult) :
  generateFullStack params = Returned r ->
  let n := appName params in
  let header :=
    [ "application:"; "  name: " ++ n;
      "  description: " ++ n ++ " application"; EmptyString; "pods:" ] in
  let frontend_block p :=
    [ "  - name: " ++ n ++ "-frontend";
      "    image: ttl.sh/" ++ n ++ "-frontend:1h";
      "    servicePorts:";
      "      - " ++ string_of_number p ] in
  let backend_block p :=
    [ "  - name: " ++ n ++ "-backend";
      "    image: ttl.sh/" ++ n ++ "-backend:1h";
      "    servicePorts:";
      "      - " ++ string_of_number p ] in
  In (manifest_file params) (files r)
  /\ content (manifest_file params)
     = join LF header
       ++ separated (when_present (frontend params) (fun f =>
                       frontend_block (number_or (frontend_port f) 3000)))
       ++ separated (when_present (backend params) (fun b =>
                       backend_block (number_or (backend_port b) 8000)))
  /\ (forall f, frontend params = Some f ->
      let p := number_or (frontend_port f) 3000 in
      exists d,
        In (mkFile "Dockerfile.frontend" "frontend/Dockerfile" d) (files r)
        /\ includes (LF ++ ("EXPOSE " ++ string_of_number p) ++ LF) d = true)
  /\ (forall b, backend params = Some b ->
      let p := number_or (backend_port b) 8000 in
      exists d,
        In (mkFile "Dockerfile.backend" "backend/Dockerfile" d) (files r)
        /\ includes (LF ++ ("EXPOSE " ++ string_of_number p) ++ LF) d = true).
Proof.
  intros Hr n header frontend_block backend_block.
  destruct (generateFullStack_returned params r Hr) as (ds & Hds & -> & _).
  destruct (dockerfiles_returned _ _ _ _ Hds) as (-> & Hf & Hb).
  split; [|split; [|split]].
  - apply in_or_app. right. apply in_or_app. right. now left.
  - unfold manifest_file. cbn [content].
    rewrite FileRefinement.generateNexlayerYaml_lines.
    unfold FileLayout.file_lines, FileLayout.header_lines,
      FileLayout.description_line.
    cbn [applicationName params_pods].
    rewrite join_app_separated. fold n. fold header.
    rewrite <- separated_app. do 2 f_equal.
    unfold full_stack_pods. rewrite flat_map_app. fold n.
    f_equal.
    + destruct (frontend params) as [f|]; [|reflexivity].
      cbn [when_present flat_map]. rewrite app_nil_r. reflexivity.
    + destruct (backend params) as [b|]; [|reflexivity].
      cbn [when_present flat_map]. rewrite app_nil_r. reflexivity.
  - intros f Ef p. destruct (Hf f Ef) as [c Ec]. exists c. split.
    + apply in_or_app. right. apply in_or_app. left. apply in_or_app. left.
      rewrite Ef. cbn [when_present]. rewrite Ec. now left.
    + exact (dockerfile_exposes _ _ _ _ Ec).
  - intros b Eb p. destruct (Hb b Eb) as [c Ec]. exists c. split.
    + apply in_or_app. right. apply in_or_app. left. apply in_or_app. right.
      rewrite Eb. cbn [when_present]. rewrite Ec. now left.
    + exact (dockerfile_exposes _ _ _ _ Ec).
Qed.

Lemma full_stack_ports_agree_witness :
  exists r,
    generateFullStack
      (mkFullStackParams "shop" (Some (mkFrontend "react" (Some 0%Z)))
         (Some (mkBackend "node" (Some 5000%Z) None)) None None) = Returned r
    /\ content (manifest_file
                  (mkFullStackParams "shop"
                     (Some (mkFrontend "react" (Some 0%Z)))
                     (Some (mkBackend "node" (Some 5000%Z) None)) None None))
       = join LF
           [ "application:"; "  name: shop";
             "  description: shop application"; EmptyString; "pods:";
             "  - name: shop-frontend";
             "    image: ttl.sh/shop-frontend:1h";
             "    servicePorts:";
             "      - 3000";
             "  - name: shop-backend";
             "    image: ttl.sh/shop-backend:1h";
             "    servicePorts:";
             "      - 5000" ]
    /\ exists d,
         In (mkFile "Dockerfile.frontend" "frontend/Dockerfile" d) (files r)
         /\ includes (LF ++ "EXPOSE 3000" ++ LF) d = true.
Proof.
  eexists. split; [reflexivity|].
  destruct (full_stack_ports_agree
              (mkFullStackParams "shop"
                 (Some (mkFrontend "react" (Some 0%Z)))
                 (Some (mkBackend "node" (Some 5000%Z) None)) None None)
              _ eq_refl) as (_ & Hm & Hf & _).
  split.
  - rewrite Hm. reflexivity.
  - destruct (Hf (mkFrontend "react" (Some 0%Z)) eq_refl) as (d & Hin & Hd).
    exists d. split; [exact Hin | exact Hd].
Defined.

End FullStackFacts.

(* ================================================================= *)
(** * More of the code: what rendering keeps *)

(** X16. [yamlToString] loses nothing but the difference between an
    empty and an absent collection: two applications whose strings hold
    no line feed and whose var names hold no colon render to the same
    text only if they agree once empty collections are made absent. *)
Theorem yamlToString_injective (a b : NexlayerYaml) :
  single_line_yaml a = true ->
  single_line_yaml b = true ->
  NexlayerApiClient.yamlToString a = NexlayerApiClient.yamlToString b ->
  canonical a = canonical b.
Proof.
  intros Ha Hb E.
  pose proof (ParserFacts.parse_yaml_lines a Ha) as Pa.
  pose proof (ParserFacts.parse_yaml_lines b Hb) as Pb.
  rewrite <- !ApiRefinement.yamlToString_lines in Pa, Pb.
  rewrite E, Pb in Pa. congruence.
Qed.

Lemma yamlToString_injective_witness :
  canonical (mkYaml (mkApplication "x" [mkPod "a" "i" (Some []) None None]))
  = canonical (mkYaml (mkApplication "x" [mkPod "a" "i" None (Some []) None])).
Proof.
  apply yamlToString_injective; reflexivity.
Defined.

(** X17. Both serializers write pods one after the other: the manifest of
    a list of pods followed by more pods is the manifest of the first
    list followed by the blocks of the others, so adding a pod changes
    nothing of what was written for the pods before it. *)
Theorem manifests_grow_by_appending (app : string)
  (ps qs : list PodConfig) (outputPath : option string) :
  NexlayerApiClient.generateYaml app (ps ++ qs)
  = NexlayerApiClient.generateYaml app ps
      ++ unlines (flat_map Layout.pod_lines qs)
  /\ FileGenerator.generateNexlayerYaml
       (mkParams app (ps ++ qs) outputPath)
     = FileGenerator.generateNexlayerYaml
         (mkParams app ps outputPath)
         ++ separated (flat_map FileLayout.pod_lines qs).
Proof.
  split.
  - unfold NexlayerApiClient.generateYaml, NexlayerApiClient.yamlToString.
    cbn [application pods]. unfold forEach. rewrite fold_left_app.
    fold (forEach qs NexlayerApiClient.pod_step).
    apply (forEach_unlines NexlayerApiClient.pod_step Layout.pod_lines
             ApiRefinement.pod_step_lines).
  - unfold FileGenerator.generateNexlayerYaml. cbn [params_pods applicationName].
    unfold forEach. rewrite fold_left_app.
    fold (forEach qs FileGenerator.pod_step).
    apply (forEach_separated FileGenerator.pod_step FileLayout.pod_lines
             FileRefinement.file_pod_step_lines).
Qed.

(* ================================================================= *)
(** * Ports outside the range *)

Lemma unlines_ends l ls : exists s, unlines (l :: ls) = s ++ LF.
Proof.
  revert l. induction ls as [|l' ls IH]; intros l.
  - exists l. now rewrite unlines_cons, unlines_nil, append_empty_r.
  - destruct (IH l') as [s E]. exists (l ++ LF ++ s).
    now rewrite unlines_cons, E, !append_assoc.
Qed.

Lemma includes_unlines_line x ls :
  In x (tl ls) -> includes (LF ++ x ++ LF) (unlines ls) = true.
Proof.
  destruct ls as [|l rest]; [contradiction|]. cbn [tl]. intros Hin.
  apply in_split in Hin as (a & b & ->).
  change (l :: a ++ x :: b)%list with ((l :: a) ++ x :: b)%list.
  rewrite unlines_app, (unlines_cons x b).
  destruct (unlines_ends l a) as [s ->].
  replace ((s ++ LF) ++ x ++ LF ++ unlines b)
    with (s ++ (LF ++ x ++ LF) ++ unlines b)
    by now rewrite !append_assoc.
  apply includes_middle.
Qed.

(** C3, amended. Construction with a [servicePorts] entry of 0 or 65536
    does not fail: like for 1 and 65535, [generateYaml] returns the
    manifest, and the text of the manifest has, between two line feeds,
    the line of that port. *)
Theorem boundary_ports_are_rendered (applicationName : string)
  (pods : list PodConfig) (pod : PodConfig) (port : Z) :
  In pod pods ->
  In port (elements (servicePorts pod)) ->
  In port [0%Z; 65536%Z; 1%Z; 65535%Z] ->
  generateYaml_call applicationName pods
  = Returned (NexlayerApiClient.generateYaml applicationName pods)
  /\ In (string_of_number port) ["0"; "65536"; "1"; "65535"]
  /\ includes (LF ++ ("        - " ++ string_of_number port) ++ LF)
              (NexlayerApiClient.generateYaml applicationName pods) = true.
Proof.
  intros Hpod Hport Hfour. split; [reflexivity|]. split.
  - simpl in Hfour.
    repeat (destruct Hfour as [<-|Hfour]; [simpl; tauto|]). contradiction.
  - unfold NexlayerApiClient.generateYaml.
    rewrite ApiRefinement.yamlToString_lines.
    apply includes_unlines_line. unfold Layout.yaml_lines. cbn [tl].
    do 2 right. apply in_flat_map. exists pod. split; [exact Hpod|].
    unfold Layout.pod_lines. apply in_or_app. left. do 2 right.
    apply (in_section _ _ _ port); [exact Hport | now left].
Qed.

Lemma boundary_ports_are_rendered_witness :
  includes (LF ++ "        - 65536" ++ LF)
           (NexlayerApiClient.generateYaml "x" [out_of_range_pod]) = true.
Proof.
  apply (boundary_ports_are_rendered "x" [out_of_range_pod]
           out_of_range_pod 65536%Z); simpl; tauto.
Defined.

(* ================================================================= *)
(** * Validation is a request *)

(** C4, amended. Validation is delegated to the platform: [validateYaml]
    makes no check of its own, it posts the manifest text to [/validate]
    and returns the result of the reply unchanged, or fails with
    [Failed to validate YAML: ...] when the request is rejected.  All
    findings of the reply are passed on: for an invalid result the tool
    prints every entry of [errors], one per line. *)
Theorem validation_is_delegated (platform : Api.Request -> HttpReply)
  (yamlContent : string) :
  (forall result,
      platform (Api.PostJson "/validate" [("yamlContent", yamlContent)])
      = Response result ->
      Validation.request_validation platform yamlContent = Returned result
      /\ (valid result = false ->
          forall findings,
            errors result = Some findings ->
            nonempty (join LF findings) = true ->
            Validation.validate_yaml platform yamlContent
            = "YAML validation failed:" ++ LF ++ "Errors: "
                ++ join LF findings))
  /\ (forall response_error message,
        platform (Api.PostJson "/validate" [("yamlContent", yamlContent)])
        = Rejected response_error message ->
        Validation.request_validation platform yamlContent
        = Thrown ("Failed to validate YAML: "
                    ++ or_else response_error message)).
Proof.
  unfold Validation.request_validation, Validation.validate_yaml,
    Validation.validate_request, validate_yaml_tool, validateYaml.
  split.
  - intros result ->. split; [reflexivity|].
    intros Hvalid findings Herrors Hne. rewrite Hvalid, Herrors.
    cbn [option_map].
    destruct (join LF findings); [discriminate Hne | reflexivity].
  - intros response_error message ->. reflexivity.
Qed.

Lemma validation_is_delegated_witness :
  let platform := fun request =>
    match request with
    | Api.PostJson "/validate" _ =>
        Response (mkResult false (Some ["pod name missing"; "image missing"])
                    None)
    | _ => Rejected None "Not Found"
    end in
  Validation.request_validation platform two_problem_manifest
  = Returned (mkResult false (Some ["pod name missing"; "image missing"]) None)
  /\ Validation.validate_yaml platform two_problem_manifest
     = "YAML validation failed:" ++ LF ++ "Errors: "
         ++ "pod name missing" ++ LF ++ "image missing".
Proof.
  intros platform.
  destruct (proj1 (validation_is_delegated platform two_problem_manifest)
              _ eq_refl) as [Hreturned Htool].
  split; [exact Hreturned|].
  exact (Htool eq_refl _ eq_refl eq_refl).
Defined.

(* ================================================================= *)
(** * Keys of absent collections *)

(** C7, as stated, fails: a valid pod without any collection, whose image
    holds a quote and line feeds, is rendered to a text that has a
    [servicePorts] key line. *)
Lemma injected_key_is_rendered :
  spec_valid (mkYaml (mkApplication "x" [injected_key_pod])) = true
  /\ present_nonempty (servicePorts injected_key_pod) = false
  /\ In "      servicePorts:"
        (split_lines (NexlayerApiClient.generateYaml "x" [injected_key_pod])).
Proof.
  split; [reflexivity|]. split; [reflexivity|].
  vm_compute. tauto.
Qed.

Lemma line_free_pod_lines pod :
  line_free_pod pod = true ->
  forallb single_line (Layout.pod_lines pod) = true.
Proof.
  unfold line_free_pod. intros H.
  apply andb_prop in H as [H Hsecrets]. apply andb_prop in H as [H Hvars].
  apply andb_prop in H as [Hname Himage].
  unfold Layout.pod_lines. apply forallb_app_true; [|apply forallb_app_true].
  - cbn [forallb]. unfold Layout.name_line, Layout.image_line.
    rewrite !single_line_app, !quoted_single_line, Hname, Himage. simpl.
    apply (section_single_line _ _ (fun _ => true)); auto using forallb_trivial.
    intros x _. cbn [forallb]. unfold Layout.port_line.
    now rewrite single_line_app, number_single_line.
  - apply (section_single_line _ _ line_free_var); auto.
    intros [k v] Hkv. unfold line_free_var in Hkv. simpl in Hkv.
    apply andb_prop in Hkv as [Hk Hv].
    cbn [forallb]. unfold Layout.var_line. simpl fst; simpl snd.
    rewrite !single_line_app, quoted_single_line, Hk, Hv. reflexivity.
  - apply (section_single_line _ _ single_line_secret); auto.
    intros x Hx. unfold single_line_secret in Hx.
    apply andb_prop in Hx as [Hx Hf]. apply andb_prop in Hx as [Hx Hm].
    apply andb_prop in Hx as [Hn Hd].
    unfold Layout.secret_lines. cbn [forallb].
    rewrite !single_line_app, !quoted_single_line, Hn, Hd, Hm, Hf. reflexivity.
Qed.

Lemma line_free_file_pod_lines pod :
  line_free_pod pod = true ->
  forallb single_line (FileLayout.pod_lines pod) = true.
Proof.
  unfold line_free_pod. intros H.
  apply andb_prop in H as [H _]. apply andb_prop in H as [H Hvars].
  apply andb_prop in H as [Hname Himage].
  unfold FileLayout.pod_lines. apply forallb_app_true.
  - cbn [forallb]. unfold FileLayout.name_line, FileLayout.image_line.
    rewrite !single_line_app, Hname, Himage. simpl.
    apply (section_single_line _ _ (fun _ => true)); auto using forallb_trivial.
    intros x _. cbn [forallb]. unfold FileLayout.port_line.
    now rewrite single_line_app, number_single_line.
  - apply (section_single_line _ _ line_free_var); auto.
    intros [k v] Hkv. unfold line_free_var in Hkv. simpl in Hkv.
    apply andb_prop in Hkv as [Hk Hv].
    cbn [forallb]. unfold FileLayout.var_line. simpl fst; simpl snd.
    rewrite !single_line_app, Hk, Hv. reflexivity.
Qed.

Lemma in_before_last key ls :
  nonempty key = true ->
  (In key (ls ++ [EmptyString])%list <-> In key ls).
Proof.
  intros Hk. rewrite in_app_iff. split; [|tauto].
  intros [H|[H|[]]]; [exact H|]. subst key. discriminate Hk.
Qed.

Lemma in_after_first key ls :
  nonempty key = true ->
  (In key (EmptyString :: ls) <-> In key ls).
Proof.
  intros Hk. split; [|now right].
  intros [H|H]; [|exact H]. subst key. discriminate Hk.
Qed.

(** C7, amended. For every pod whose strings hold no line feed, the text
    a serializer writes for the pod has the key line of an optional
    collection exactly when the collection is present and non-empty:
    for an absent or an empty [servicePorts], [vars] or [secrets] no line
    of the text is that key.  This holds for both serializers, the one of
    [generateNexlayerYaml] never writing [secrets]. *)
Theorem absent_collections_are_omitted (pod : PodConfig) (acc : string) :
  line_free_pod pod = true ->
  let block := unlines (Layout.pod_lines pod) in
  let file_block := separated (FileLayout.pod_lines pod) in
  (NexlayerApiClient.pod_step pod acc = acc ++ block
   /\ (In "      servicePorts:" (split_lines block)
       <-> present_nonempty (servicePorts pod) = true)
   /\ (In "      vars:" (split_lines block)
       <-> present_nonempty (vars pod) = true)
   /\ (In "      secrets:" (split_lines block)
       <-> present_nonempty (secrets pod) = true))
  /\ (FileGenerator.pod_step pod acc = acc ++ file_block
      /\ (In "    servicePorts:" (split_lines file_block)
          <-> present_nonempty (servicePorts pod) = true)
      /\ (In "    vars:" (split_lines file_block)
          <-> present_nonempty (vars pod) = true)
      /\ ~ In "    secrets:" (split_lines file_block)).
Proof.
  intros Hpod block file_block. subst block file_block.
  rewrite (split_lines_unlines _ (line_free_pod_lines pod Hpod)).
  assert (E : split_lines (separated (FileLayout.pod_lines pod))
              = EmptyString :: FileLayout.pod_lines pod).
  { apply split_lines_separated. now apply line_free_file_pod_lines. }
  rewrite E. clear E.
  rewrite !in_before_last, !in_after_first by reflexivity.
  split.
  - split; [apply ApiRefinement.pod_step_lines|].
    split; [apply Keys.ports_key|].
    split; [apply Keys.vars_key | apply Keys.secrets_key].
  - split; [apply FileRefinement.file_pod_step_lines|].
    split; [apply FileKeys.file_ports_key|].
    split; [apply FileKeys.file_vars_key|].
    apply differs_not_in.
    unfold FileLayout.pod_lines, FileLayout.ports_section,
      FileLayout.vars_section.
    lines_differ.
Qed.

Lemma absent_collections_are_omitted_witness :
  line_free_pod (mkPod "api" "img" (Some []) None (Some [])) = true
  /\ ~ In "      servicePorts:"
         (split_lines
            (unlines (Layout.pod_lines
                        (mkPod "api" "img" (Some []) None (Some [])))))
  /\ ~ In "      secrets:"
         (split_lines
            (unlines (Layout.pod_lines
                        (mkPod "api" "img" (Some []) None (Some []))))).
Proof.
  split; [reflexivity|].
  destruct (absent_collections_are_omitted
              (mkPod "api" "img" (Some []) None (Some [])) EmptyString eq_refl)
    as [(_ & Hports & _ & Hsecrets) _].
  split; intros H.
  - apply Hports in H. discriminate H.
  - apply Hsecrets in H. discriminate H.
Defined.
